(** * vulcan_logger: a shallow embedding of [vulcan_logger/logger.py]

    The module wraps a named logger of Python's [logging] package.  Its
    constructor installs a colourised console sink and, when the environment
    asks for it, a file sink; its five severity methods resolve the caller's
    source location by a scan over the call stack and delegate to the
    underlying logger.

    Python state is threaded explicitly: a [World] holds the process
    environment, the part of the file system the module touches, the
    registry of named loggers with their handler lists, the heap of wrapper
    instances, and the two standard streams.  Exceptions are results, and
    [try ... except Exception] is a combinator.  Every call that leaves
    the module and can raise, [print] and [str(exc)] included, asks the
    world whether it does. *)

From Stdlib Require Import ZArith Ascii String List Bool Lia.
From stdpp Require Import base option list gmap strings.

Local Open Scope string_scope.
Local Open Scope Z_scope.

(** ** Strings as the module uses them *)

Module Str.

(** Strings are byte strings.  [str.upper] is modelled on the ASCII range,
    where every level name lives; on text that satisfies [is_ascii] it is
    Python's [str.upper]. *)
Definition upper_ascii (c : ascii) : ascii :=
  let n := nat_of_ascii c in
  if (Nat.leb 97 n && Nat.leb n 122)%bool then ascii_of_nat (n - 32) else c.

Fixpoint upper (s : string) : string :=
  match s with
  | EmptyString => EmptyString
  | String c rest => String (upper_ascii c) (upper rest)
  end.

(** [s.endswith(suffix)] for one suffix. *)
Definition endswith (s suffix : string) : bool :=
  let n := String.length s in
  let m := String.length suffix in
  (Nat.leb m n && String.eqb (substring (n - m) m s) suffix)%bool.

(** [s.endswith(t)] for a tuple [t] of suffixes: any of them. *)
Definition endswith_any (s : string) (suffixes : list string) : bool :=
  existsb (endswith s) suffixes.

Definition is_sep (c : ascii) : bool := Ascii.eqb c "/"%char.

Fixpoint has_sep (s : string) : bool :=
  match s with
  | EmptyString => false
  | String c rest => (is_sep c || has_sep rest)%bool
  end.

(** [os.path.basename]: what follows the last separator. *)
Fixpoint basename (p : string) : string :=
  match p with
  | EmptyString => EmptyString
  | String c rest =>
      if has_sep rest then basename rest
      else if is_sep c then rest
      else p
  end.

Definition startswith_sep (s : string) : bool :=
  match s with
  | String c _ => is_sep c
  | EmptyString => false
  end.

(** [os.path.join(a, b)] for two components. *)
Definition join (a b : string) : string :=
  if startswith_sep b then b
  else if (String.eqb a "" || endswith a "/")%bool then a ++ b
  else a ++ "/" ++ b.

(** The directories [os.makedirs] has to create above [p]: every
    non-empty prefix of [p] that a separator follows. *)
Fixpoint parents_from (acc p : string) : list string :=
  match p with
  | EmptyString => []
  | String c rest =>
      ((if (is_sep c && negb (String.eqb acc ""))%bool then [acc] else [])
         ++ parents_from (acc ++ String c EmptyString) rest)%list
  end.

Definition parents (p : string) : list string := parents_from "" p.

Definition is_ascii_char (c : ascii) : bool := Nat.ltb (nat_of_ascii c) 128.

Fixpoint is_ascii (s : string) : bool :=
  match s with
  | EmptyString => true
  | String c rest => (is_ascii_char c && is_ascii rest)%bool
  end.

(** [s.rfind(".", 0, hi)]: the last dot before position [hi]. *)
Fixpoint rfind_dot (s : string) (hi : nat) : option nat :=
  match hi with
  | O => None
  | S j =>
      match String.get j s with
      | Some c => if Ascii.eqb c "."%char then Some j else rfind_dot s j
      | None => rfind_dot s j
      end
  end.

End Str.

(** ** Module constants *)

Definition EXCLUDE : list string :=
  [ "decorator.py";
    "logger.py";
    "logging/__init__.py";
    "<frozen importlib._bootstrap>" ].

Definition LOG_FORMAT : string :=
  "%(asctime)s - %(name)s - %(levelname)s - %(message)s - (%(caller_filename)s:%(caller_lineno)d)".

Definition DATE_FORMAT : string := "%Y-%m-%d %H:%M:%S".

(** ** Data *)

(** An instance of [Exception] (or of a subclass): its class name and the
    text its [__str__] yields when it returns.  Signals outside that
    hierarchy ([KeyboardInterrupt], [SystemExit]) are not faults of any step
    and are not modelled. *)
Record Exception := mkException { exc_class : string; exc_str : string }.

(** One entry of [inspect.stack()]. *)
Record FrameInfo := mkFrame { filename : string; lineno : Z }.

(** The dictionary [{'caller_filename': ..., 'caller_lineno': ...}]; its two
    keys are fixed. *)
Record CallerInfo := mkCallerInfo { caller_filename : string; caller_lineno : Z }.

Inductive Severity := DEBUG | INFO | WARNING | CRITICAL | ERROR.

(** A [logging.Formatter]. *)
Record Formatter := mkFormatter { fmt : string; datefmt : string }.

Inductive Sink :=
| Console                       (* a stream handler on stdout or stderr *)
| File (path : string)          (* a [logging.FileHandler] *)
| Other (kind : string).        (* any other handler *)

(** A handler object of the [logging] package. *)
Record Handler := mkHandler {
  h_sink : Sink;
  h_level : string;
  h_formatter : option Formatter
}.

(** A call received by a severity method of an underlying logger. *)
Record LogCall := mkLogCall {
  lc_severity : Severity;
  lc_logger : string;
  lc_message : string;
  lc_extra : CallerInfo;
  lc_exc_info : bool
}.

(** The attributes of a wrapper instance; [None] before the assignment in
    [__init__].  The logger reference is the logger's name: loggers are
    process-wide singletons by name. *)
Record Instance := mkInstance { logger : option string; level : option string }.

Definition loc := nat.

(** Calls that leave the module and can raise. *)
Inductive Op :=
| op_install (lvl lg f d : string)
| op_makedirs (path : string) (exist_ok : bool)
| op_FileHandler (path : string)
| op_setLevel (lvl : string)
| op_Formatter (f d : string)
| op_log (sev : Severity) (lg msg : string) (extra : CallerInfo) (exc_info : bool)
| op_str (exc : Exception)
| op_print (text : string).

Record World := mkWorld {
  environ : gmap string string;            (* [os.environ] *)
  dirs : gset string;                      (* existing directories *)
  files : gset string;                     (* existing regular files *)
  handlers : gmap string (list Handler);   (* logger name -> its handlers *)
  propagate_off : gset string;             (* loggers with [propagate = False] *)
  instances : list Instance;               (* heap of wrapper objects *)
  calls : list LogCall;                    (* calls the loggers received *)
  stdout : list string;                    (* lines written to [sys.stdout] *)
  stderr : list string;                    (* lines written to [sys.stderr] *)
  faults : Op -> option Exception;         (* which calls raise, and what *)
  module_dir : string                      (* where [logger.py] is installed *)
}.

Definition with_dirs (f : gset string -> gset string) (w : World) : World :=
  mkWorld (environ w) (f (dirs w)) (files w) (handlers w) (propagate_off w)
          (instances w) (calls w) (stdout w) (stderr w) (faults w) (module_dir w).

Definition with_files (f : gset string -> gset string) (w : World) : World :=
  mkWorld (environ w) (dirs w) (f (files w)) (handlers w) (propagate_off w)
          (instances w) (calls w) (stdout w) (stderr w) (faults w) (module_dir w).

Definition with_handlers
    (f : gmap string (list Handler) -> gmap string (list Handler)) (w : World) : World :=
  mkWorld (environ w) (dirs w) (files w) (f (handlers w)) (propagate_off w)
          (instances w) (calls w) (stdout w) (stderr w) (faults w) (module_dir w).

Definition with_instances (f : list Instance -> list Instance) (w : World) : World :=
  mkWorld (environ w) (dirs w) (files w) (handlers w) (propagate_off w)
          (f (instances w)) (calls w) (stdout w) (stderr w) (faults w) (module_dir w).

Definition with_calls (f : list LogCall -> list LogCall) (w : World) : World :=
  mkWorld (environ w) (dirs w) (files w) (handlers w) (propagate_off w)
          (instances w) (f (calls w)) (stdout w) (stderr w) (faults w) (module_dir w).

Definition with_stdout (f : list string -> list string) (w : World) : World :=
  mkWorld (environ w) (dirs w) (files w) (handlers w) (propagate_off w)
          (instances w) (calls w) (f (stdout w)) (stderr w) (faults w) (module_dir w).

(** The key of the logger that [logging.getLogger(name)] denotes: the empty
    name is the root logger, whose name is "root". *)
Definition logger_key (name : string) : string :=
  if String.eqb name "" then "root" else name.

(** The handler list of a named logger; a logger nobody configured has none. *)
Definition handlers_of (w : World) (lg : string) : list Handler :=
  default [] (handlers w !! logger_key lg).

(** ** The monad: state, and exceptions as results *)

Inductive Result (A : Type) :=
| Return (a : A)
| Raise (e : Exception).
Arguments Return {A} a.
Arguments Raise {A} e.

Definition M (A : Type) : Type := World -> Result A * World.

Definition ret {A} (a : A) : M A := fun w => (Return a, w).

Definition raise {A} (e : Exception) : M A := fun w => (Raise e, w).

Definition bind {A B} (m : M A) (k : A -> M B) : M B :=
  fun w =>
    match m w with
    | (Return a, w') => k a w'
    | (Raise e, w') => (Raise e, w')
    end.

(** [try: body except Exception as e: handler(e)]; what [body] did to the
    world before raising stays done, and what [handler] raises is not
    caught. *)
Definition try_except {A} (body : M A) (handler : Exception -> M A) : M A :=
  fun w =>
    match body w with
    | (Return a, w') => (Return a, w')
    | (Raise e, w') => handler e w'
    end.

Declare Scope py_scope.
Delimit Scope py_scope with py.
Notation "x <- m ;; k" := (bind m (fun x => k))
  (at level 100, m at next level, right associativity) : py_scope.
Notation "m ;; k" := (bind m (fun _ => k))
  (at level 100, right associativity) : py_scope.
Local Open Scope py_scope.

(** Run a call that can raise: it raises when the world says so, before it
    has any effect. *)
Definition guarded {A} (op : Op) (run : World -> A * World) : M A :=
  fun w =>
    match faults w op with
    | Some e => (Raise e, w)
    | None => let (a, w') := run w in (Return a, w')
    end.

(** ** Collaborators *)

(** [os.environ.get(key, default)] *)
Definition os_environ_get (key dflt : string) : M string :=
  fun w => (Return (default dflt (environ w !! key)), w).

(** [os.environ.get(key)] *)
Definition os_environ_lookup (key : string) : M (option string) :=
  fun w => (Return (environ w !! key), w).

(** [os.path.isdir(path)]: never raises. *)
Definition os_path_isdir (path : string) : M bool :=
  fun w => (Return (bool_decide (path ∈ dirs w)), w).

(** [os.makedirs(path, exist_ok=...)]: creates [path] and the missing
    directories above it; an existing [path] is an error unless
    [exist_ok]. *)
Definition os_makedirs (path : string) (exist_ok : bool) : M unit :=
  guarded (op_makedirs path exist_ok) (fun w => (tt, w)) ;;
  exists_ <- os_path_isdir path ;;
  if (exists_ && negb exist_ok)%bool
  then raise (mkException "FileExistsError" path)
  else fun w =>
    (Return tt, with_dirs (fun d => d ∪ list_to_set (path :: Str.parents path)) w).

(** [logging.getLogger(name)]: get or create; the reference is the key. *)
Definition logging_getLogger (name : string) : M string :=
  fun w =>
    (Return (logger_key name),
     with_handlers (fun h => match h !! logger_key name with
                             | Some _ => h
                             | None => <[logger_key name := []]> h
                             end) w).

(** [logger.addHandler(hdlr)] for a handler just created. *)
Definition Logger_addHandler (lg : string) (hdlr : Handler) : M unit :=
  fun w =>
    (Return tt,
     with_handlers
       (fun h => <[logger_key lg := (default [] (h !! logger_key lg) ++ [hdlr])%list]> h) w).

(** *** The console installer

    [coloredlogs.install] looks along the propagation chain of the logger
    for a stream handler on stdout or stderr, removes the first it finds,
    and installs its own handler on the logger that held it, or on the
    given logger when there was none.  A level name that [logging] does not
    define becomes INFO. *)

(** The names [logging] defines as levels. *)
Definition defined_level (name : string) : bool :=
  existsb (String.eqb name)
    [ "CRITICAL"; "FATAL"; "ERROR"; "WARN"; "WARNING"; "INFO"; "DEBUG"; "NOTSET" ].

(** [coloredlogs.level_to_number], by name. *)
Definition level_to_number (lvl : string) : string :=
  if defined_level (Str.upper lvl) then Str.upper lvl else "INFO".

(** The dotted prefixes of a logger name, longest first, as
    [logging.Manager._fixupParents] visits them. *)
Fixpoint dotted_prefixes (fuel : nat) (name : string) (i : option nat) : list string :=
  match fuel, i with
  | S fuel', Some i =>
      if Nat.ltb 0 i
      then (substring 0 i name :: dotted_prefixes fuel' name (Str.rfind_dot name (i - 1)))%list
      else []
  | _, _ => []
  end.

Definition ancestor_names (name : string) : list string :=
  dotted_prefixes (String.length name) name (Str.rfind_dot name (String.length name)).

(** [logger.parent]: the nearest ancestor that exists, else the root; the
    root has none. *)
Definition parent_of (w : World) (key : string) : option string :=
  if String.eqb key "root" then None
  else Some (default "root"
               (List.find (fun a => bool_decide (is_Some (handlers w !! a)))
                  (ancestor_names key))).

(** [coloredlogs.walk_propagation_tree] *)
Fixpoint propagation_chain (fuel : nat) (w : World) (key : string) : list string :=
  (key :: match fuel with
          | O => []
          | S fuel' =>
              if bool_decide (key ∈ propagate_off w) then []
              else match parent_of w key with
                   | Some p => propagation_chain fuel' w p
                   | None => []
                   end
          end)%list.

Definition is_console (h : Handler) : bool :=
  match h_sink h with
  | Console => true
  | File _ | Other _ => false
  end.

(** [coloredlogs.find_handler]: the first logger of the chain that holds a
    stream handler on stdout or stderr; the given logger when none does. *)
Definition install_target (w : World) (lg : string) : string :=
  default (logger_key lg)
    (List.find (fun k => existsb is_console (default [] (handlers w !! k)))
       (propagation_chain (S (String.length lg)) w (logger_key lg))).

(** [logger.removeHandler] of the first stream handler on stdout or stderr. *)
Fixpoint remove_first_console (hs : list Handler) : list Handler :=
  match hs with
  | [] => []
  | h :: rest => if is_console h then rest else h :: remove_first_console rest
  end.

(** [coloredlogs.install(level=..., logger=..., fmt=..., datefmt=...)];
    logger levels are not tracked. *)
Definition coloredlogs_install (lvl lg f d : string) : M unit :=
  guarded (op_install lvl lg f d) (fun w => (tt, w)) ;;
  fun w =>
    let target := install_target w lg in
    (Return tt,
     with_handlers
       (fun h => <[target := (remove_first_console (default [] (h !! target))
                              ++ [mkHandler Console (level_to_number lvl)
                                    (Some (mkFormatter f d))])%list]> h) w).

(** [logging.FileHandler(path)]: opens [path] for appending, which creates
    the file; whether the open succeeds (the directory may be missing) is
    for the world to say.  The new handler has no level and no formatter
    yet. *)
Definition logging_FileHandler (path : string) : M Handler :=
  guarded (op_FileHandler path)
    (fun w => (mkHandler (File path) "NOTSET" None,
               with_files (fun fs => fs ∪ {[ path ]}) w)).

(** [hdlr.setLevel(level)] on a handler held in a local variable. *)
Definition Handler_setLevel (hdlr : Handler) (lvl : string) : M Handler :=
  guarded (op_setLevel lvl)
    (fun w => (mkHandler (h_sink hdlr) lvl (h_formatter hdlr), w)).

(** [logging.Formatter(fmt=..., datefmt=...)] *)
Definition logging_Formatter (f d : string) : M Formatter :=
  guarded (op_Formatter f d) (fun w => (mkFormatter f d, w)).

(** [hdlr.setFormatter(formatter)] *)
Definition Handler_setFormatter (hdlr : Handler) (fm : Formatter) : M Handler :=
  ret (mkHandler (h_sink hdlr) (h_level hdlr) (Some fm)).

(** [logger.debug], [logger.info], ...: the call is received, then the
    logger either raises or returns. *)
Definition Logger_method (sev : Severity) (lg : string)
    (message : string) (extra : CallerInfo) (exc_info : bool) : M unit :=
  (fun w => (Return tt,
             with_calls (fun c => (c ++ [mkLogCall sev lg message extra exc_info])%list) w)) ;;
  guarded (op_log sev lg message extra exc_info) (fun w => (tt, w)).

(** [str(exc)], as an f-string calls it: the exception's own [__str__],
    which can raise. *)
Definition py_str (exc : Exception) : M string :=
  guarded (op_str exc) (fun w => (exc_str exc, w)).

(** [print(s)] with no [file] argument: the text and a newline go to
    [sys.stdout]; a closed or broken stream makes the call raise. *)
Definition print (s : string) : M unit :=
  guarded (op_print s) (fun w => (tt, with_stdout (fun out => (out ++ [s])%list) w)).

(** Attribute access on a wrapper instance. *)
Definition getattr {A} (proj : Instance -> option A) (name : string) (self : loc) : M A :=
  fun w =>
    match instances w !! self ≫= proj with
    | Some v => (Return v, w)
    | None => (Raise (mkException "AttributeError" name), w)
    end.

Definition setattr (upd : Instance -> Instance) (self : loc) : M unit :=
  fun w => (Return tt, with_instances (alter upd self) w).

Definition set_logger (lg : string) (i : Instance) : Instance :=
  mkInstance (Some lg) (level i).

Definition set_level (lv : string) (i : Instance) : Instance :=
  mkInstance (logger i) (Some lv).

(** The path of this module's source file. *)
Definition this_file (w : World) : string := module_dir w ++ "logger.py".

(** The call stack, innermost frame first, while a function of this module
    that was called from the frames [below] executes line [line]. *)
Definition enter (line : Z) (below : list FrameInfo) : M (list FrameInfo) :=
  fun w => (Return (mkFrame (this_file w) line :: below), w).

(** [inspect.stack()] at line [line] of this module: the running function's
    own frame comes first. *)
Definition inspect_stack (line : Z) (below : list FrameInfo) : M (list FrameInfo) :=
  enter line below.

(** ** The wrapper class *)

Module Logger.

(** [_internal_error]: lines 182-193.  The f-string renders [exc] with
    [str]. *)
Definition _internal_error (self : loc) (message : string) (exc : Exception) : M unit :=
  exc_text <- py_str exc ;;
  let final_message :=
    "Internal Logger Error: " ++ message ++ " | Exception: " ++ exc_text in
  print final_message.

(** [_install_coloredlogs]: lines 46-55. *)
Definition _install_coloredlogs (self : loc) : M unit :=
  try_except
    (self_level <- getattr level "level" self ;;
     env_level <- os_environ_get "VULCAN_LOG_LEVEL" self_level ;;
     self_logger <- getattr logger "logger" self ;;
     coloredlogs_install (Str.upper env_level) self_logger LOG_FORMAT DATE_FORMAT)
    (fun e => _internal_error self "Error installing coloredlogs" e).

(** [_file_name]: lines 57-58. *)
Definition _file_name (self : loc) : M string :=
  v <- os_environ_get "VULCAN_LOG_NAME" "vulcan" ;;
  ret (v ++ ".log").

(** [_make_dir]: lines 60-65. *)
Definition _make_dir (self : loc) (log_path : string) : M unit :=
  try_except
    (isdir <- os_path_isdir log_path ;;
     if negb isdir then os_makedirs log_path true else ret tt)
    (fun e => _internal_error self "Error creating the log directory" e).

(** [_file_handler]: lines 67-81. *)
Definition _file_handler (self : loc) (log_path : string) : M unit :=
  try_except
    (name <- _file_name self ;;
     let log_path := Str.join log_path name in
     file_handler <- logging_FileHandler log_path ;;
     self_level <- getattr level "level" self ;;
     env_level <- os_environ_get "VULCAN_LOG_LEVEL" self_level ;;
     file_handler <- Handler_setLevel file_handler (Str.upper env_level) ;;
     formatter <- logging_Formatter LOG_FORMAT DATE_FORMAT ;;
     file_handler <- Handler_setFormatter file_handler formatter ;;
     self_logger <- getattr logger "logger" self ;;
     Logger_addHandler self_logger file_handler)
    (fun e => _internal_error self "Error creating log file handler" e).

(** Truth value of a string: non-empty. *)
Definition truthy (s : string) : bool := negb (String.eqb s "").

(** [_setup]: lines 83-95. *)
Definition _setup (self : loc) : M unit :=
  _install_coloredlogs self ;;
  log_path <- os_environ_lookup "log_path" ;;
  match log_path with
  | Some p =>
      if truthy p then
        try_except
          (_make_dir self p ;;
           _file_handler self p)
          (fun e => _internal_error self "Error setting up file handler for logger" e)
      else ret tt
  | None => ret tt
  end.

(** [__init__]: lines 34-44. *)
Definition __init__ (self : loc) (name level : string) : M unit :=
  lg <- logging_getLogger name ;;
  setattr (set_logger lg) self ;;
  setattr (set_level (Str.upper level)) self ;;
  _setup self.

(** [Logger(name, level)]: a fresh object, initialised. *)
Definition new (name level : string) : M loc :=
  self <- (fun w => (Return (length (instances w)),
                     with_instances (fun l => (l ++ [mkInstance None None])%list) w)) ;;
  __init__ self name level ;;
  ret self.

Definition excluded (frame_info : FrameInfo) : bool :=
  Str.endswith_any (filename frame_info) EXCLUDE.

(** The loop of [_stack_trace], lines 110-115: the first frame that is not
    excluded overwrites both entries and ends the loop. *)
Fixpoint _stack_trace_loop (frames : list FrameInfo) (caller_info : CallerInfo)
    : CallerInfo :=
  match frames with
  | [] => caller_info
  | frame_info :: rest =>
      if negb (excluded frame_info)
      then mkCallerInfo (Str.basename (filename frame_info)) (lineno frame_info)
      else _stack_trace_loop rest caller_info
  end.

(** [_stack_trace]: lines 99-116, called with the frames [below] its own. *)
Definition _stack_trace (self : loc) (below : list FrameInfo) : M CallerInfo :=
  stack <- inspect_stack 108 below ;;
  let caller_info := mkCallerInfo "Unknown" 0 in
  ret (_stack_trace_loop (tail stack) caller_info).

(** [_base]: lines 118-130, called with the frames [below] its own. *)
Definition _base (self : loc) (func : string -> CallerInfo -> bool -> M unit)
    (message : string) (exc_info : bool) (below : list FrameInfo) : M unit :=
  stack <- enter 129 below ;;
  caller_info <- _stack_trace self stack ;;
  func message caller_info exc_info.

(** The public methods, lines 132-180; [callers] is the stack of the code
    that calls the method, innermost frame first. *)
Definition debug (self : loc) (message : string) (callers : list FrameInfo) : M unit :=
  stack <- enter 140 callers ;;
  self_logger <- getattr logger "logger" self ;;
  _base self (Logger_method DEBUG self_logger) message false stack.

Definition info (self : loc) (message : string) (callers : list FrameInfo) : M unit :=
  stack <- enter 150 callers ;;
  self_logger <- getattr logger "logger" self ;;
  _base self (Logger_method INFO self_logger) message false stack.

Definition warning (self : loc) (message : string) (callers : list FrameInfo) : M unit :=
  stack <- enter 160 callers ;;
  self_logger <- getattr logger "logger" self ;;
  _base self (Logger_method WARNING self_logger) message false stack.

Definition critical (self : loc) (message : string) (callers : list FrameInfo) : M unit :=
  stack <- enter 170 callers ;;
  self_logger <- getattr logger "logger" self ;;
  _base self (Logger_method CRITICAL self_logger) message false stack.

Definition error (self : loc) (message : string) (callers : list FrameInfo) : M unit :=
  stack <- enter 180 callers ;;
  self_logger <- getattr logger "logger" self ;;
  _base self (Logger_method ERROR self_logger) message true stack.

(** The public method of a given name. *)
Definition method (sev : Severity) : loc -> string -> list FrameInfo -> M unit :=
  match sev with
  | DEBUG => debug
  | INFO => info
  | WARNING => warning
  | CRITICAL => critical
  | ERROR => error
  end.

End Logger.


(** ** What the specification names *)

(** A wrapper instance whose constructor has stored both attributes. *)
Definition constructed (w : World) (self : loc) (lg lv : string) : Prop :=
  instances w !! self = Some (mkInstance (Some lg) (Some lv)).

(** The caller-info record a public method computes for a caller stack. *)
Definition caller_info_of (callers : list FrameInfo) : CallerInfo :=
  Logger._stack_trace_loop callers (mkCallerInfo "Unknown" 0).

(** The internal-error fallback can do its work: rendering a fault and
    writing a line do not raise. *)
Definition fallback_works (w : World) : Prop :=
  (forall exc, faults w (op_str exc) = None) /\
  (forall text, faults w (op_print text) = None).

Module Spec.

(** "Internal Logger Error: {message} | Exception: {fault}" *)
Definition fallback_line (message : string) (fault : Exception) : string :=
  "Internal Logger Error: " ++ message ++ " | Exception: " ++ exc_str fault.

(** "true only for error, false for the other four" *)
Definition exc_info (sev : Severity) : bool :=
  match sev with
  | ERROR => true
  | DEBUG | INFO | WARNING | CRITICAL => false
  end.

(** "value of environment variable VULCAN_LOG_LEVEL if set, else the
    instance's configured level, upper-cased" *)
Definition effective_level (env : gmap string string) (configured : string) : string :=
  Str.upper (match env !! "VULCAN_LOG_LEVEL" with
             | Some v => v
             | None => configured
             end).

(** "{VULCAN_LOG_NAME env var, default vulcan}.log" *)
Definition log_file_name (env : gmap string string) : string :=
  match env !! "VULCAN_LOG_NAME" with
  | Some v => v ++ ".log"
  | None => "vulcan.log"
  end.




(** The console sink's "effective level" is the one of [effective_level]. *)
Definition console_level_is_effective (self : loc) (lg lv : string) (w : World) : Prop :=
  forall h,
    h ∈ handlers_of (snd (Logger._install_coloredlogs self w)) lg ->
    h_sink h = Console ->
    h_level h = effective_level (environ w) lv.


End Spec.


(** ** The world each setup step leaves *)

(** The internal-error fallback has written its line for fault [e]. *)
Definition report (context : string) (e : Exception) (w : World) : World :=
  with_stdout (fun out => out ++ [Spec.fallback_line context e])%list w.

(** Handler [h] has been added to logger [lg]. *)
Definition attach (lg : string) (h : Handler) (w : World) : World :=
  with_handlers
    (fun m => <[logger_key lg := (default [] (m !! logger_key lg) ++ [h])%list]> m) w.

Definition console_sink (lv : string) : Handler :=
  mkHandler Console lv (Some (mkFormatter LOG_FORMAT DATE_FORMAT)).

Definition file_sink (path lv : string) : Handler :=
  mkHandler (File path) lv (Some (mkFormatter LOG_FORMAT DATE_FORMAT)).

(** The console installer has replaced or added the console sink. *)
Definition install_sink (lg lvl : string) (w : World) : World :=
  with_handlers
    (fun m => <[install_target w lg :=
                  (remove_first_console (default [] (m !! install_target w lg))
                   ++ [console_sink (level_to_number lvl)])%list]> m) w.

Definition log_file_path (w : World) (p : string) : string :=
  Str.join p (Spec.log_file_name (environ w)).

(** The fault each setup step meets in a world, if any. *)
Definition console_fault (w : World) (lg lv : string) : option Exception :=
  faults w (op_install (Spec.effective_level (environ w) lv) lg LOG_FORMAT DATE_FORMAT).

Definition directory_fault (w : World) (p : string) : option Exception :=
  if bool_decide (p ∈ dirs w) then None else faults w (op_makedirs p true).

Definition file_sink_fault (w : World) (lv p : string) : option Exception :=
  match faults w (op_FileHandler (log_file_path w p)) with
  | Some e => Some e
  | None =>
      match faults w (op_setLevel (Spec.effective_level (environ w) lv)) with
      | Some e => Some e
      | None => faults w (op_Formatter LOG_FORMAT DATE_FORMAT)
      end
  end.

(** The lines the fallback writes for a step's outcome. *)
Definition reported (context : string) (o : option Exception) : list string :=
  match o with
  | Some e => [Spec.fallback_line context e]
  | None => []
  end.

(** The handlers a step adds for its outcome. *)
Definition added (o : option Exception) (h : Handler) : list Handler :=
  match o with
  | Some _ => []
  | None => [h]
  end.

(** The directory of [log_path] when file output is asked for. *)
Definition requested_log_path (w : World) : option string :=
  match environ w !! "log_path" with
  | Some p => if Logger.truthy p then Some p else None
  | None => None
  end.

(** Where the fallback works, each step returns and leaves this world. *)
Definition after_install (lg lv : string) (w : World) : World :=
  match console_fault w lg lv with
  | Some e => report "Error installing coloredlogs" e w
  | None => install_sink lg (Spec.effective_level (environ w) lv) w
  end.

Definition after_make_dir (p : string) (w : World) : World :=
  if bool_decide (p ∈ dirs w) then w
  else match faults w (op_makedirs p true) with
       | Some e => report "Error creating the log directory" e w
       | None => with_dirs (fun d => d ∪ list_to_set (p :: Str.parents p)) w
       end.

Definition after_file_handler (lg lv p : string) (w : World) : World :=
  let opened := with_files (fun fs => fs ∪ {[ log_file_path w p ]}) w in
  match faults w (op_FileHandler (log_file_path w p)) with
  | Some e => report "Error creating log file handler" e w
  | None =>
      match faults w (op_setLevel (Spec.effective_level (environ w) lv)) with
      | Some e => report "Error creating log file handler" e opened
      | None =>
          match faults w (op_Formatter LOG_FORMAT DATE_FORMAT) with
          | Some e => report "Error creating log file handler" e opened
          | None =>
              attach lg (file_sink (log_file_path w p)
                           (Spec.effective_level (environ w) lv)) opened
          end
      end
  end.

Definition after_setup (lg lv : string) (w : World) : World :=
  let w1 := after_install lg lv w in
  match requested_log_path w with
  | Some p => after_file_handler lg lv p (after_make_dir p w1)
  | None => w1
  end.

(** In any world, what each step returns or raises and the world it
    leaves: a fault of the step goes to the fallback, whose own outcome is
    then the step's. *)
Definition install_outcome (lg lv : string) (w : World) : Result unit * World :=
  match console_fault w lg lv with
  | Some e => Logger._internal_error O "Error installing coloredlogs" e w
  | None => (Return tt, install_sink lg (Spec.effective_level (environ w) lv) w)
  end.

Definition make_dir_outcome (p : string) (w : World) : Result unit * World :=
  match directory_fault w p with
  | Some e => Logger._internal_error O "Error creating the log directory" e w
  | None => (Return tt, after_make_dir p w)
  end.

Definition file_handler_outcome (lg lv p : string) (w : World) : Result unit * World :=
  match file_sink_fault w lv p with
  | Some e =>
      Logger._internal_error O "Error creating log file handler" e
        (match faults w (op_FileHandler (log_file_path w p)) with
         | Some _ => w
         | None => with_files (fun fs => fs ∪ {[ log_file_path w p ]}) w
         end)
  | None => (Return tt, after_file_handler lg lv p w)
  end.

(** The file branch of [_setup]: what [_make_dir] or [_file_handler] raises
    (only their fallback can) goes to the outer handler. *)
Definition file_branch_outcome (lg lv p : string) (w : World) : Result unit * World :=
  match make_dir_outcome p w with
  | (Raise e, w2) =>
      Logger._internal_error O "Error setting up file handler for logger" e w2
  | (Return _, w2) =>
      match file_handler_outcome lg lv p w2 with
      | (Raise e, w3) =>
          Logger._internal_error O "Error setting up file handler for logger" e w3
      | (Return _, w3) => (Return tt, w3)
      end
  end.

Definition setup_outcome (lg lv : string) (w : World) : Result unit * World :=
  match install_outcome lg lv w with
  | (Raise e, w1) => (Raise e, w1)
  | (Return _, w1) =>
      match requested_log_path w1 with
      | Some p => file_branch_outcome lg lv p w1
      | None => (Return tt, w1)
      end
  end.

(** The world in which [__init__] calls [_setup]: the object is allocated,
    the logger registered, both attributes stored. *)
Definition before_setup (name level : string) (w : World) : World :=
  let self := length (instances w) in
  with_instances (alter (set_level (Str.upper level)) self)
    (with_instances (alter (set_logger (logger_key name)) self)
       (with_handlers (fun h => match h !! logger_key name with
                                | Some _ => h
                                | None => <[logger_key name := []]> h
                                end)
          (with_instances (fun l => (l ++ [mkInstance None None])%list) w))).

(** A handler that writes to a file. *)
Definition is_file_sink (h : Handler) : bool :=
  match h_sink h with
  | File _ => true
  | Console | Other _ => false
  end.


(** Construct two wrappers on the same logger name. *)
Definition construct_twice (name level1 level2 : string) : M loc :=
  bind (Logger.new name level1) (fun _ => Logger.new name level2).

(** How far a run may change the world: it reads the environment, the
    fault oracle and the instance heap, delivers no call and writes nothing
    to standard error; directories, files and output lines are only added;
    and of every logger's handlers, those that are not console sinks stay
    in place, new ones coming after them. *)
Record extends (w w' : World) : Prop := mkExtends {
  ext_environ : environ w' = environ w;
  ext_faults : faults w' = faults w;
  ext_propagate : propagate_off w' = propagate_off w;
  ext_instances : instances w' = instances w;
  ext_calls : calls w' = calls w;
  ext_stderr : stderr w' = stderr w;
  ext_dirs : dirs w ⊆ dirs w';
  ext_files : files w ⊆ files w';
  ext_stdout : exists lines, stdout w' = (stdout w ++ lines)%list;
  ext_handlers : forall k, exists more,
      List.filter (fun h => negb (is_console h)) (handlers_of w' k)
      = (List.filter (fun h => negb (is_console h)) (handlers_of w k) ++ more)%list
}.

(** Two worlds that differ at most in the instance heap, in the delivered
    calls and in what the streams hold. *)
Definition agree (w1 w2 : World) : Prop :=
  environ w1 = environ w2 /\ dirs w1 = dirs w2 /\ files w1 = files w2 /\
  handlers w1 = handlers w2 /\ propagate_off w1 = propagate_off w2 /\
  faults w1 = faults w2.

(** Two runs that end alike: the same result, in worlds that [agree]. *)
Definition same_outcome {A} (r1 r2 : Result A * World) : Prop :=
  fst r1 = fst r2 /\ agree (snd r1) (snd r2).

(** ** Concrete worlds *)

(** A process with one constructed wrapper, an empty environment and no
    failing collaborator. *)
Definition demo_world : World :=
  mkWorld ∅ ∅ ∅ ∅ ∅ [mkInstance (Some "svc") (Some "DEBUG")] [] [] []
          (fun _ => None) "/site-packages/vulcan_logger/".

Definition demo_callers : list FrameInfo :=
  [ mkFrame "/app/util/decorator.py" 12; mkFrame "/app/main.py" 41;
    mkFrame "/app/run.py" 7 ].



Definition permission_denied : Exception :=
  mkException "PermissionError" "[Errno 13] Permission denied: '/var/log/app'".

(** A process that has constructed no wrapper yet and asks for file output. *)
Definition fresh_world : World :=
  mkWorld {[ "log_path" := "/var/log/app" ]} ∅ ∅ ∅ ∅ [] [] [] []
          (fun _ => None) "/site-packages/vulcan_logger/".

Definition no_terminal : Exception := mkException "OSError" "no terminal".


Definition closed_stdout : Exception :=
  mkException "ValueError" "I/O operation on closed file.".

(** A constructed wrapper in a process where installing the console sink
    fails and standard output is closed. *)
Definition closed_stdout_world : World :=
  mkWorld {[ "log_path" := "/var/log/app" ]} ∅ ∅ ∅ ∅
          [mkInstance (Some "svc") (Some "DEBUG")] [] [] []
          (fun op => match op with
                     | op_install _ _ _ _ => Some no_terminal
                     | op_print _ => Some closed_stdout
                     | _ => None
                     end)
          "/site-packages/vulcan_logger/".

(** A constructed wrapper in an environment that sets all three variables. *)
Definition configured_world : World :=
  mkWorld (<[ "VULCAN_LOG_LEVEL" := "warning" ]>
             (<[ "VULCAN_LOG_NAME" := "billing" ]>
                {[ "log_path" := "/var/log/app" ]}))
          ∅ ∅ ∅ ∅ [mkInstance (Some "svc") (Some "DEBUG")] [] [] []
          (fun _ => None) "/site-packages/vulcan_logger/".

Definition log_directories : gset string :=
  {[ "/var"; "/var/log"; "/var/log/app"; "/tmp" ]}.

(** The same, once the log directory exists. *)
Definition prepared_world : World :=
  mkWorld (<[ "VULCAN_LOG_LEVEL" := "warning" ]>
             (<[ "VULCAN_LOG_NAME" := "billing" ]>
                {[ "log_path" := "/var/log/app" ]}))
          log_directories ∅ ∅ ∅ [mkInstance (Some "svc") (Some "DEBUG")] [] [] []
          (fun _ => None) "/site-packages/vulcan_logger/".

Definition unknown_level : Exception :=
  mkException "ValueError" "Unknown level: 'VERBOSE'".

(** A constructed wrapper whose environment names a level that the logging
    package does not define: [setLevel] rejects it. *)
Definition verbose_world : World :=
  mkWorld (<[ "VULCAN_LOG_LEVEL" := "verbose" ]> {[ "log_path" := "/var/log/app" ]})
          log_directories ∅ ∅ ∅ [mkInstance (Some "svc") (Some "DEBUG")] [] [] []
          (fun op => match op with
                     | op_setLevel _ => Some unknown_level
                     | _ => None
                     end)
          "/site-packages/vulcan_logger/".

(** A constructed wrapper whose environment gives an absolute log name. *)
Definition absolute_name_world : World :=
  mkWorld (<[ "VULCAN_LOG_NAME" := "/tmp/escape" ]> {[ "log_path" := "/var/log/app" ]})
          log_directories ∅ ∅ ∅ [mkInstance (Some "svc") (Some "DEBUG")] [] [] []
          (fun _ => None) "/site-packages/vulcan_logger/".

(** A process in which the logger "svc" already has a console sink, and a
    wrapper is to be constructed on its child "svc.db". *)
Definition parent_console_world : World :=
  mkWorld ∅ ∅ ∅ {[ "svc" := [mkHandler Console "DEBUG" None] ]} ∅ [] [] [] []
          (fun _ => None) "/site-packages/vulcan_logger/".

Definition would_block : Exception :=
  mkException "BlockingIOError" "[Errno 11] write could not complete without blocking".

(** A constructed wrapper in a process where the log directory cannot be
    created and the report of that fault cannot be written. *)
Definition unreportable_directory_world : World :=
  mkWorld {[ "log_path" := "/var/log/app" ]} ∅ ∅ ∅ ∅
          [mkInstance (Some "svc") (Some "DEBUG")] [] [] []
          (fun op =>
             match op with
             | op_makedirs _ _ => Some permission_denied
             | op_print text =>
                 if String.eqb text
                      (Spec.fallback_line "Error creating the log directory"
                         permission_denied)
                 then Some would_block else None
             | _ => None
             end)
          "/site-packages/vulcan_logger/".

(** ** Facts about the string operations *)

Section StringFacts.

Local Open Scope nat_scope.
#[local] Arguments String.append !s1 s2 : simpl nomatch.

Lemma substring_all (s : string) : substring 0 (String.length s) s = s.
Proof. induction s as [|c s IH]; simpl; [reflexivity | now rewrite IH]. Qed.

Lemma substring_skip (p s : string) (m : nat) :
  substring (String.length p) m (p ++ s) = substring 0 m s.
Proof. induction p as [|c p IH]; simpl; [reflexivity | exact IH]. Qed.

Lemma length_app_string (p s : string) :
  String.length (p ++ s) = String.length p + String.length s.
Proof. induction p as [|c p IH]; simpl; [reflexivity | now rewrite IH]. Qed.

(** A string ends with each of its suffixes. *)
Lemma endswith_app (p suffix : string) : Str.endswith (p ++ suffix) suffix = true.
Proof.
  unfold Str.endswith. rewrite length_app_string.
  replace (String.length p + String.length suffix - String.length suffix)
    with (String.length p) by lia.
  rewrite substring_skip, substring_all, String.eqb_refl.
  rewrite andb_true_r. apply Nat.leb_le. lia.
Qed.

Lemma substring_split (s : string) (n : nat) :
  n <= String.length s ->
  s = (substring 0 n s ++ substring n (String.length s - n) s)%string.
Proof.
  revert n. induction s as [|c s IH]; intros [|n] Hn; simpl in *;
    try reflexivity; try lia.
  - now rewrite substring_all.
  - f_equal. apply IH. lia.
Qed.

(** And with nothing else. *)
Lemma endswith_inv (s suffix : string) :
  Str.endswith s suffix = true -> exists p, s = (p ++ suffix)%string.
Proof.
  unfold Str.endswith. intros H.
  apply andb_prop in H as [Hle Heq].
  apply Nat.leb_le in Hle. apply String.eqb_eq in Heq.
  exists (substring 0 (String.length s - String.length suffix) s).
  pose proof (substring_split s (String.length s - String.length suffix)) as Hsplit.
  replace (String.length s - (String.length s - String.length suffix))
    with (String.length suffix) in Hsplit by lia.
  rewrite Heq in Hsplit. apply Hsplit. lia.
Qed.

(** The base name holds no separator ... *)
Lemma basename_no_sep (p : string) : Str.has_sep (Str.basename p) = false.
Proof.
  induction p as [|c p IH]; simpl; [reflexivity|].
  destruct (Str.has_sep p) eqn:Hs; [exact IH|].
  destruct (Str.is_sep c) eqn:Hc; [exact Hs|].
  simpl. now rewrite Hc, Hs.
Qed.

(** ... and is the end of the path, after nothing or after a separator. *)
Lemma basename_final_segment (p : string) :
  exists d, p = (d ++ Str.basename p)%string /\
            (d = EmptyString \/ Str.endswith d "/" = true).
Proof.
  induction p as [|c p (d & Hd & Hsep)]; simpl.
  - exists EmptyString. auto.
  - destruct (Str.has_sep p) eqn:Hs.
    + exists (String c d). split; [simpl; now rewrite <- Hd|].
      right. destruct Hsep as [-> | He].
      * simpl in Hd. rewrite Hd in Hs. now rewrite basename_no_sep in Hs.
      * apply endswith_inv in He as [q ->].
        apply (endswith_app (String c q) "/").
    + destruct (Str.is_sep c) eqn:Hc.
      * exists (String c EmptyString). split; [reflexivity|]. right.
        unfold Str.is_sep in Hc. apply Ascii.eqb_eq in Hc. now subst c.
      * exists EmptyString. auto.
Qed.

Lemma upper_ascii_idem (c : ascii) : Str.upper_ascii (Str.upper_ascii c) = Str.upper_ascii c.
Proof.
  unfold Str.upper_ascii.
  destruct (Nat.leb 97 (nat_of_ascii c) && Nat.leb (nat_of_ascii c) 122)%bool eqn:H;
    [|now rewrite H].
  apply andb_prop in H as [H1 H2]. apply Nat.leb_le in H1, H2.
  rewrite nat_ascii_embedding by lia.
  destruct (Nat.leb 97 (nat_of_ascii c - 32)) eqn:H3; [|reflexivity].
  apply Nat.leb_le in H3. lia.
Qed.

(** Upper-casing twice is upper-casing once. *)
Lemma upper_idem (s : string) : Str.upper (Str.upper s) = Str.upper s.
Proof.
  induction s as [|c s IH]; simpl; [reflexivity|].
  now rewrite upper_ascii_idem, IH.
Qed.



End StringFacts.

(** ** Caller resolution *)

Section CallerResolution.

(** Every frame of this module is excluded: its file is [logger.py]. *)
Lemma own_frame_excluded (w : World) (line : Z) :
  Logger.excluded (mkFrame (this_file w) line) = true.
Proof.
  unfold Logger.excluded, Str.endswith_any, EXCLUDE, this_file. simpl.
  rewrite endswith_app.
  now destruct (Str.endswith _ "decorator.py").
Qed.

Lemma loop_skips_excluded (skipped rest : list FrameInfo) (ci : CallerInfo) :
  Forall (fun g => Logger.excluded g = true) skipped ->
  Logger._stack_trace_loop (skipped ++ rest)%list ci = Logger._stack_trace_loop rest ci.
Proof.
  induction 1 as [|g skipped Hg _ IH]; simpl; [reflexivity|].
  now rewrite Hg.
Qed.

Lemma loop_all_excluded (frames : list FrameInfo) (ci : CallerInfo) :
  Forall (fun g => Logger.excluded g = true) frames ->
  Logger._stack_trace_loop frames ci = ci.
Proof.
  intros H. rewrite <- (app_nil_r frames). now rewrite loop_skips_excluded.
Qed.

(** Called through [_base] from a public method, [_stack_trace] scans
    exactly the frames of the method's caller. *)
Lemma stack_trace_run (self : loc) (w : World) (l_base l_method : Z)
    (callers : list FrameInfo) :
  Logger._stack_trace self
    (mkFrame (this_file w) l_base :: mkFrame (this_file w) l_method :: callers) w
  = (Return (caller_info_of callers), w).
Proof.
  unfold Logger._stack_trace, inspect_stack, enter, bind, ret, caller_info_of.
  simpl. now rewrite !own_frame_excluded.
Qed.

End CallerResolution.

(** C3. Called from a public logging method, the caller-resolution routine
    scans the frames of the method's caller in order, skips every frame whose
    file path ends with one of the four excluded suffixes, and returns the
    base name of the file and the line number of the first frame that is not
    excluded; when every frame is excluded it returns the default record
    ("Unknown", 0). *)
Theorem stack_trace_first_non_excluded (self : loc) (w : World) (l_base l_method : Z)
    (callers : list FrameInfo) :
  let below := mkFrame (this_file w) l_base :: mkFrame (this_file w) l_method :: callers in
  (forall skipped f rest,
      callers = (skipped ++ f :: rest)%list ->
      Forall (fun g => Str.endswith_any (filename g) EXCLUDE = true) skipped ->
      Str.endswith_any (filename f) EXCLUDE = false ->
      Logger._stack_trace self below w
      = (Return (mkCallerInfo (Str.basename (filename f)) (lineno f)), w))
  /\ (Forall (fun g => Str.endswith_any (filename g) EXCLUDE = true) callers ->
      Logger._stack_trace self below w = (Return (mkCallerInfo "Unknown" 0), w)).
Proof.
  intros below. unfold below. split.
  - intros skipped f rest -> Hskip Hf.
    rewrite stack_trace_run. unfold caller_info_of.
    rewrite loop_skips_excluded by exact Hskip.
    simpl. unfold Logger.excluded. now rewrite Hf.
  - intros Hall. rewrite stack_trace_run. unfold caller_info_of.
    now rewrite loop_all_excluded.
Qed.

Lemma stack_trace_first_non_excluded_witness :
  Logger._stack_trace 0%nat
    (mkFrame (this_file demo_world) 129 :: mkFrame (this_file demo_world) 140
       :: demo_callers) demo_world
  = (Return (mkCallerInfo "main.py" 41), demo_world).
Proof.
  apply (proj1 (stack_trace_first_non_excluded 0%nat demo_world 129 140 demo_callers)
           [mkFrame "/app/util/decorator.py" 12] (mkFrame "/app/main.py" 41)
           [mkFrame "/app/run.py" 7]).
  - reflexivity.
  - repeat constructor.
  - reflexivity.
Defined.

(** Project the fields of an updated world, and nothing else. *)
Ltac world_simpl :=
  cbn [with_files with_dirs with_handlers with_stdout with_calls with_instances
       report attach install_sink
       environ dirs files handlers propagate_off instances calls stdout stderr
       faults module_dir h_sink h_level h_formatter fst snd].

(** ** The fallback *)

Section Fallback.

Variables (self : loc) (context : string) (e : Exception) (w : World).

(** The fallback renders the fault, then writes; either call may raise,
    and nothing catches it. *)
Lemma internal_error_run :
  Logger._internal_error self context e w
  = match faults w (op_str e) with
    | Some e' => (Raise e', w)
    | None =>
        match faults w (op_print (Spec.fallback_line context e)) with
        | Some e' => (Raise e', w)
        | None => (Return tt, report context e w)
        end
    end.
Proof.
  unfold Logger._internal_error, bind, py_str, print, guarded.
  destruct (faults w (op_str e)); [reflexivity|].
  unfold Spec.fallback_line. now destruct (faults w (op_print _)).
Qed.

Lemma internal_error_works :
  fallback_works w ->
  Logger._internal_error self context e w = (Return tt, report context e w).
Proof. intros [Hstr Hprint]. now rewrite internal_error_run, Hstr, Hprint. Qed.

(** Whatever the fallback does, it leaves the world as it was or with its
    one line more. *)
Lemma internal_error_world :
  snd (Logger._internal_error self context e w) = w \/
  snd (Logger._internal_error self context e w) = report context e w.
Proof.
  rewrite internal_error_run.
  destruct (faults w (op_str e)); [now left|].
  destruct (faults w (op_print _)); [now left | now right].
Qed.

End Fallback.




(** C2, at the input the code fails on: the fallback line has the text the
    specification gives, but it is written to standard output; standard
    error stays empty. *)
Theorem internal_error_writes_stdout :
  let w' := snd (Logger._internal_error 0%nat "Error creating the log directory"
                   permission_denied demo_world) in
  stderr w' = [] /\
  stdout w' = [ "Internal Logger Error: Error creating the log directory | Exception: [Errno 13] Permission denied: '/var/log/app'" ].
Proof. split; reflexivity. Qed.

(** ** The public methods *)

Section Dispatch.

(** A public method reads the logger attribute, resolves the caller and
    delegates; nothing else. *)
Lemma method_run (sev : Severity) (self : loc) (message : string)
    (callers : list FrameInfo) (w : World) :
  Logger.method sev self message callers w
  = match instances w !! self ≫= logger with
    | Some lg =>
        Logger_method sev lg message (caller_info_of callers) (Spec.exc_info sev) w
    | None => (Raise (mkException "AttributeError" "logger"), w)
    end.
Proof.
  destruct sev; simpl;
    unfold Logger.debug, Logger.info, Logger.warning, Logger.critical, Logger.error,
      bind, enter, getattr;
    (destruct (instances w !! self ≫= logger) as [lg|]; [|reflexivity]);
    unfold Logger._base, bind, enter; now rewrite stack_trace_run.
Qed.

Lemma Logger_method_run (sev : Severity) (lg message : string) (extra : CallerInfo)
    (exc_info : bool) (w : World) :
  Logger_method sev lg message extra exc_info w
  = let w' := with_calls
                (fun c => c ++ [mkLogCall sev lg message extra exc_info])%list w in
    match faults w (op_log sev lg message extra exc_info) with
    | Some e => (Raise e, w')
    | None => (Return tt, w')
    end.
Proof.
  unfold Logger_method, bind, guarded. simpl.
  now destruct (faults w _).
Qed.

Lemma constructed_logger (w : World) (self : loc) (lg lv : string) :
  constructed w self lg lv -> instances w !! self ≫= logger = Some lg.
Proof. unfold constructed. now intros ->. Qed.

Lemma constructed_level (w : World) (self : loc) (lg lv : string) :
  constructed w self lg lv -> instances w !! self ≫= level = Some lv.
Proof. unfold constructed. now intros ->. Qed.

End Dispatch.




(** C4. For every message, the exception-info flag the underlying logger
    receives is true when the public method is [error] and false when it is
    [debug], [info], [warning] or [critical]. *)
Theorem exc_info_only_for_error (sev : Severity) (self : loc) (message : string)
    (callers : list FrameInfo) (w : World) (lg lv : string) :
  constructed w self lg lv ->
  exists extra,
    calls (snd (Logger.method sev self message callers w))
    = (calls w ++ [mkLogCall sev lg message extra
                     match sev with
                     | ERROR => true
                     | DEBUG | INFO | WARNING | CRITICAL => false
                     end])%list.
Proof.
  intros Hc. exists (caller_info_of callers).
  rewrite method_run, (constructed_logger _ _ _ _ Hc), Logger_method_run.
  destruct sev; simpl; now destruct (faults w _).
Qed.

Lemma exc_info_only_for_error_witness :
  exists extra,
    calls (snd (Logger.error 0%nat "boom" demo_callers demo_world))
    = [mkLogCall ERROR "svc" "boom" extra true].
Proof.
  exact (exc_info_only_for_error ERROR 0%nat "boom" demo_callers demo_world
           "svc" "DEBUG" eq_refl).
Defined.

(** C10. A public logging method leaves the wrapper's state as it was: the
    attributes of every instance (level string, logger reference) and the
    handler list of every logger are the same after the call as before. *)
Theorem logging_leaves_state_unchanged (sev : Severity) (self : loc) (message : string)
    (callers : list FrameInfo) (w : World) :
  let w' := snd (Logger.method sev self message callers w) in
  instances w' = instances w /\ handlers w' = handlers w.
Proof.
  simpl. rewrite method_run.
  destruct (instances w !! self ≫= logger) as [lg|]; [|now split].
  rewrite Logger_method_run. simpl. now destruct (faults w _).
Qed.


(** ** How a world may grow *)

Lemma handlers_of_update (key k : string) (g : list Handler -> list Handler)
    (w : World) :
  handlers_of (with_handlers (fun m => <[key := g (default [] (m !! key))]> m) w) k
  = if decide (key = logger_key k) then g (handlers_of w k) else handlers_of w k.
Proof.
  unfold handlers_of. world_simpl. destruct (decide (key = logger_key k)) as [->|Hne].
  - now rewrite lookup_insert_eq.
  - now rewrite lookup_insert_ne.
Qed.

Lemma filter_remove_first_console (P : Handler -> bool) (l : list Handler) :
  (forall h, is_console h = true -> P h = false) ->
  List.filter P (remove_first_console l) = List.filter P l.
Proof.
  intros HP. induction l as [|h l IH]; simpl; [reflexivity|].
  destruct (is_console h) eqn:Hc.
  - now rewrite (HP h Hc).
  - simpl. now rewrite IH.
Qed.

Lemma extends_refl (w : World) : extends w w.
Proof.
  constructor; try reflexivity.
  - exists []. now rewrite app_nil_r.
  - intros k. exists []. now rewrite app_nil_r.
Qed.

Lemma extends_trans (w1 w2 w3 : World) :
  extends w1 w2 -> extends w2 w3 -> extends w1 w3.
Proof.
  intros [E1 F1 P1 I1 C1 S1 D1 Fi1 [l1 O1] H1] [E2 F2 P2 I2 C2 S2 D2 Fi2 [l2 O2] H2].
  constructor; try congruence.
  - now transitivity (dirs w2).
  - now transitivity (files w2).
  - exists (l1 ++ l2)%list. now rewrite O2, O1, <- app_assoc.
  - intros k. destruct (H1 k) as [m1 M1], (H2 k) as [m2 M2].
    exists (m1 ++ m2)%list. now rewrite M2, M1, <- app_assoc.
Qed.

Lemma extends_report (context : string) (e : Exception) (w : World) :
  extends w (report context e w).
Proof.
  constructor; try reflexivity.
  - eexists. reflexivity.
  - intros k. exists []. now rewrite app_nil_r.
Qed.

Lemma extends_install_sink (lg lvl : string) (w : World) :
  extends w (install_sink lg lvl w).
Proof.
  constructor; try reflexivity.
  - exists []. now rewrite app_nil_r.
  - intros k. unfold install_sink.
    rewrite (handlers_of_update _ k
               (fun l => remove_first_console l ++ [console_sink (level_to_number lvl)])%list).
    destruct (decide _) as [Heq|]; [|exists []; now rewrite app_nil_r].
    exists []. rewrite List.filter_app, app_nil_r. simpl. rewrite app_nil_r.
    apply filter_remove_first_console. now intros h ->.
Qed.

Lemma extends_attach (lg : string) (h : Handler) (w : World) :
  extends w (attach lg h w).
Proof.
  constructor; try reflexivity.
  - exists []. now rewrite app_nil_r.
  - intros k. unfold attach.
    rewrite (handlers_of_update _ k (fun l => l ++ [h])%list).
    destruct (decide _) as [Heq|]; [|exists []; now rewrite app_nil_r].
    eexists. now rewrite List.filter_app.
Qed.

Lemma extends_with_dirs (more : gset string) (w : World) :
  extends w (with_dirs (fun d => d ∪ more) w).
Proof.
  constructor; try reflexivity.
  - world_simpl. set_solver.
  - exists []. now rewrite app_nil_r.
  - intros k. exists []. now rewrite app_nil_r.
Qed.

Lemma extends_with_files (more : gset string) (w : World) :
  extends w (with_files (fun fs => fs ∪ more) w).
Proof.
  constructor; try reflexivity.
  - world_simpl. set_solver.
  - exists []. now rewrite app_nil_r.
  - intros k. exists []. now rewrite app_nil_r.
Qed.

Lemma extends_internal_error (self : loc) (context : string) (e : Exception)
    (w : World) :
  extends w (snd (Logger._internal_error self context e w)).
Proof.
  destruct (internal_error_world self context e w) as [-> | ->].
  - apply extends_refl.
  - apply extends_report.
Qed.

Lemma extends_after_make_dir (p : string) (w : World) :
  extends w (after_make_dir p w).
Proof.
  unfold after_make_dir. destruct (bool_decide _); [apply extends_refl|].
  destruct (faults w _); [apply extends_report | apply extends_with_dirs].
Qed.

Lemma extends_after_file_handler (lg lv p : string) (w : World) :
  extends w (after_file_handler lg lv p w).
Proof.
  unfold after_file_handler.
  destruct (faults w (op_FileHandler _)); [apply extends_report|].
  destruct (faults w (op_setLevel _)).
  { eapply extends_trans; [apply extends_with_files | apply extends_report]. }
  destruct (faults w (op_Formatter _ _)).
  { eapply extends_trans; [apply extends_with_files | apply extends_report]. }
  eapply extends_trans; [apply extends_with_files | apply extends_attach].
Qed.

Lemma extends_after_install (lg lv : string) (w : World) :
  extends w (after_install lg lv w).
Proof.
  unfold after_install.
  destruct (console_fault w lg lv); [apply extends_report | apply extends_install_sink].
Qed.

Lemma extends_install_outcome (lg lv : string) (w : World) :
  extends w (snd (install_outcome lg lv w)).
Proof.
  unfold install_outcome.
  destruct (console_fault w lg lv);
    [apply extends_internal_error | apply extends_install_sink].
Qed.

Lemma extends_make_dir_outcome (p : string) (w : World) :
  extends w (snd (make_dir_outcome p w)).
Proof.
  unfold make_dir_outcome.
  destruct (directory_fault w p);
    [apply extends_internal_error | apply extends_after_make_dir].
Qed.

Lemma extends_file_handler_outcome (lg lv p : string) (w : World) :
  extends w (snd (file_handler_outcome lg lv p w)).
Proof.
  unfold file_handler_outcome.
  destruct (file_sink_fault w lv p); [|apply extends_after_file_handler].
  eapply extends_trans; [|apply extends_internal_error].
  destruct (faults w _); [apply extends_refl | apply extends_with_files].
Qed.

Lemma extends_file_branch_outcome (lg lv p : string) (w : World) :
  extends w (snd (file_branch_outcome lg lv p w)).
Proof.
  unfold file_branch_outcome.
  pose proof (extends_make_dir_outcome p w) as H1.
  destruct (make_dir_outcome p w) as [[[]|e1] w2]; cbn [snd] in H1.
  - pose proof (extends_file_handler_outcome lg lv p w2) as H2.
    destruct (file_handler_outcome lg lv p w2) as [[[]|e2] w3]; cbn [snd] in H2.
    + now apply extends_trans with w2.
    + eapply extends_trans; [|apply extends_internal_error].
      now apply extends_trans with w2.
  - eapply extends_trans; [exact H1 | apply extends_internal_error].
Qed.

Lemma extends_setup_outcome (lg lv : string) (w : World) :
  extends w (snd (setup_outcome lg lv w)).
Proof.
  unfold setup_outcome.
  pose proof (extends_install_outcome lg lv w) as H1.
  destruct (install_outcome lg lv w) as [[[]|e1] w1]; cbn [snd] in H1; [|exact H1].
  destruct (requested_log_path w1) as [p|]; [|exact H1].
  eapply extends_trans; [exact H1 | apply extends_file_branch_outcome].
Qed.

(** ** Setup, step by step *)

Section SetupSteps.

Variables (w : World) (self : loc) (lg lv : string).
Hypothesis Hself : constructed w self lg lv.

Lemma effective_level_eq :
  Str.upper (default lv (environ w !! "VULCAN_LOG_LEVEL"))
  = Spec.effective_level (environ w) lv.
Proof. unfold Spec.effective_level. now destruct (environ w !! _). Qed.

Lemma log_file_name_eq :
  (default "vulcan" (environ w !! "VULCAN_LOG_NAME") ++ ".log")%string
  = Spec.log_file_name (environ w).
Proof. unfold Spec.log_file_name. now destruct (environ w !! _). Qed.

Lemma install_run :
  Logger._install_coloredlogs self w = install_outcome lg lv w.
Proof.
  unfold Logger._install_coloredlogs, try_except, bind, getattr, os_environ_get,
    coloredlogs_install, bind, guarded, install_outcome, console_fault.
  rewrite (constructed_level _ _ _ _ Hself). cbn beta iota.
  rewrite (constructed_logger _ _ _ _ Hself). cbn beta iota.
  rewrite effective_level_eq.
  now destruct (faults w _).
Qed.

Lemma make_dir_run (p : string) :
  Logger._make_dir self p w = make_dir_outcome p w.
Proof.
  unfold Logger._make_dir, try_except, bind, os_path_isdir, os_makedirs, bind,
    guarded, os_path_isdir, make_dir_outcome, directory_fault, after_make_dir.
  destruct (bool_decide (p ∈ dirs w)) eqn:Hd; simpl; [reflexivity|].
  destruct (faults w _); [reflexivity|].
  now rewrite Hd.
Qed.

Lemma file_handler_run (p : string) :
  Logger._file_handler self p w = file_handler_outcome lg lv p w.
Proof.
  unfold Logger._file_handler, try_except, bind, Logger._file_name, bind,
    os_environ_get, ret, logging_FileHandler, guarded, file_handler_outcome,
    file_sink_fault, after_file_handler, log_file_path.
  rewrite log_file_name_eq.
  destruct (faults w (op_FileHandler _)); [reflexivity|].
  unfold getattr, Handler_setLevel, logging_Formatter, Handler_setFormatter,
    Logger_addHandler, guarded, ret.
  world_simpl.
  rewrite (constructed_level _ _ _ _ Hself). world_simpl.
  rewrite effective_level_eq.
  destruct (faults w (op_setLevel _)); [reflexivity|]. world_simpl.
  destruct (faults w (op_Formatter LOG_FORMAT DATE_FORMAT)); [reflexivity|].
  world_simpl.
  now rewrite (constructed_logger _ _ _ _ Hself).
Qed.

End SetupSteps.

Lemma constructed_extends (w w' : World) (self : loc) (lg lv : string) :
  extends w w' -> constructed w self lg lv -> constructed w' self lg lv.
Proof. intros H. unfold constructed. now rewrite (ext_instances _ _ H). Qed.

Lemma requested_log_path_extends (w w' : World) :
  extends w w' -> requested_log_path w' = requested_log_path w.
Proof. intros H. unfold requested_log_path. now rewrite (ext_environ _ _ H). Qed.

Section Setup.

Variables (w : World) (self : loc) (lg lv : string).
Hypothesis Hself : constructed w self lg lv.

Lemma file_branch_run (p : string) :
  try_except (Logger._make_dir self p ;; Logger._file_handler self p)
    (fun e => Logger._internal_error self "Error setting up file handler for logger" e) w
  = file_branch_outcome lg lv p w.
Proof.
  unfold try_except, bind, file_branch_outcome. rewrite make_dir_run.
  pose proof (extends_make_dir_outcome p w) as H1.
  destruct (make_dir_outcome p w) as [[[]|e1] w2]; cbn [snd] in H1; [|reflexivity].
  rewrite (file_handler_run w2 self lg lv (constructed_extends _ _ _ _ _ H1 Hself)).
  now destruct (file_handler_outcome lg lv p w2) as [[[]|e2] w3].
Qed.

End Setup.

Lemma setup_run (w : World) (self : loc) (lg lv : string) :
  constructed w self lg lv ->
  Logger._setup self w = setup_outcome lg lv w.
Proof.
  intros Hself. unfold Logger._setup, bind, setup_outcome.
  rewrite (install_run w self lg lv Hself).
  pose proof (extends_install_outcome lg lv w) as H1.
  destruct (install_outcome lg lv w) as [[[]|e1] w1]; cbn [snd] in H1; [|reflexivity].
  unfold os_environ_lookup, requested_log_path.
  destruct (environ w1 !! "log_path") as [p|]; [|reflexivity].
  destruct (Logger.truthy p); [|reflexivity].
  apply (file_branch_run w1 self lg lv (constructed_extends _ _ _ _ _ H1 Hself)).
Qed.

Section Construction.

Variables (name level : string) (w : World).

Lemma before_setup_constructed :
  constructed (before_setup name level w) (length (instances w))
    (logger_key name) (Str.upper level).
Proof.
  unfold constructed, before_setup. world_simpl.
  rewrite !list_lookup_alter_eq.
  now rewrite (list_lookup_middle (instances w) [] _ (length (instances w)) eq_refl).
Qed.

Lemma new_run :
  Logger.new name level w
  = match setup_outcome (logger_key name) (Str.upper level)
            (before_setup name level w) with
    | (Return _, w') => (Return (length (instances w)), w')
    | (Raise e, w') => (Raise e, w')
    end.
Proof.
  unfold Logger.new, bind, Logger.__init__, bind, logging_getLogger, setattr, ret.
  cbn beta iota.
  change (Logger._setup (length (instances w)) _)
    with (Logger._setup (length (instances w)) (before_setup name level w)).
  rewrite (setup_run _ _ _ _ before_setup_constructed).
  now destruct (setup_outcome _ _ _) as [[[]|e] w'].
Qed.

Lemma handlers_of_before_setup (k : string) :
  handlers_of (before_setup name level w) k = handlers_of w k.
Proof.
  unfold handlers_of, before_setup. world_simpl.
  destruct (handlers w !! logger_key name) eqn:H; [reflexivity|].
  destruct (decide (logger_key name = logger_key k)) as [Heq|Hne].
  - now rewrite Heq, lookup_insert_eq, <- Heq, H.
  - now rewrite lookup_insert_ne.
Qed.

End Construction.

(** ** Where the fallback works *)

Section Works.

Variables (lg lv p : string) (w : World).
Hypothesis Hworks : fallback_works w.

Lemma install_outcome_works :
  install_outcome lg lv w = (Return tt, after_install lg lv w).
Proof.
  unfold install_outcome, after_install. destruct (console_fault w lg lv); [|reflexivity].
  now apply internal_error_works.
Qed.

Lemma make_dir_outcome_works :
  make_dir_outcome p w = (Return tt, after_make_dir p w).
Proof.
  unfold make_dir_outcome, directory_fault, after_make_dir.
  destruct (bool_decide _); [reflexivity|].
  destruct (faults w _); [|reflexivity].
  now apply internal_error_works.
Qed.

Lemma file_handler_outcome_works :
  file_handler_outcome lg lv p w = (Return tt, after_file_handler lg lv p w).
Proof.
  unfold file_handler_outcome, file_sink_fault, after_file_handler.
  destruct (faults w (op_FileHandler _)); [now apply internal_error_works|].
  destruct (faults w (op_setLevel _)).
  { apply internal_error_works. exact Hworks. }
  destruct (faults w (op_Formatter _ _)); [|reflexivity].
  apply internal_error_works. exact Hworks.
Qed.

End Works.

Lemma fallback_works_extends (w w' : World) :
  extends w w' -> fallback_works w -> fallback_works w'.
Proof. intros H. unfold fallback_works. now rewrite (ext_faults _ _ H). Qed.

Lemma setup_outcome_works (lg lv : string) (w : World) :
  fallback_works w ->
  setup_outcome lg lv w = (Return tt, after_setup lg lv w).
Proof.
  intros Hworks. unfold setup_outcome, after_setup.
  rewrite (install_outcome_works lg lv w Hworks).
  pose proof (fallback_works_extends _ _ (extends_after_install lg lv w) Hworks) as H1.
  rewrite (requested_log_path_extends _ _ (extends_after_install lg lv w)).
  destruct (requested_log_path w) as [p|]; [|reflexivity].
  unfold file_branch_outcome. rewrite (make_dir_outcome_works p _ H1).
  pose proof (fallback_works_extends _ _ (extends_after_make_dir p _) H1) as H2.
  now rewrite (file_handler_outcome_works lg lv p _ H2).
Qed.

Lemma new_works (name level : string) (w : World) :
  fallback_works w ->
  Logger.new name level w
  = (Return (length (instances w)),
     after_setup (logger_key name) (Str.upper level) (before_setup name level w)).
Proof.
  intros Hworks. rewrite new_run, setup_outcome_works; [reflexivity|].
  exact Hworks.
Qed.

(** ** What the steps leave alone *)

Section Frames.

Variables (lg lv p : string) (w : World).

Lemma after_install_frame :
  environ (after_install lg lv w) = environ w /\
  dirs (after_install lg lv w) = dirs w /\
  files (after_install lg lv w) = files w /\
  instances (after_install lg lv w) = instances w /\
  faults (after_install lg lv w) = faults w.
Proof. unfold after_install. now destruct (console_fault w lg lv). Qed.

Lemma after_make_dir_frame :
  environ (after_make_dir p w) = environ w /\
  files (after_make_dir p w) = files w /\
  handlers (after_make_dir p w) = handlers w /\
  instances (after_make_dir p w) = instances w /\
  faults (after_make_dir p w) = faults w.
Proof.
  unfold after_make_dir. destruct (bool_decide _); [easy|].
  now destruct (faults w _).
Qed.


Lemma stdout_after_install :
  stdout (after_install lg lv w)
  = (stdout w ++ reported "Error installing coloredlogs" (console_fault w lg lv))%list.
Proof.
  unfold after_install. destruct (console_fault w lg lv); simpl; [reflexivity|].
  now rewrite app_nil_r.
Qed.

Lemma stdout_after_make_dir :
  stdout (after_make_dir p w)
  = (stdout w ++ reported "Error creating the log directory" (directory_fault w p))%list.
Proof.
  unfold after_make_dir, directory_fault.
  destruct (bool_decide _); simpl; [now rewrite app_nil_r|].
  destruct (faults w _); simpl; [reflexivity|]. now rewrite app_nil_r.
Qed.

Lemma stdout_after_file_handler :
  stdout (after_file_handler lg lv p w)
  = (stdout w ++ reported "Error creating log file handler" (file_sink_fault w lv p))%list.
Proof.
  unfold after_file_handler, file_sink_fault.
  destruct (faults w (op_FileHandler _)); simpl; [reflexivity|].
  destruct (faults w (op_setLevel _)); simpl; [reflexivity|].
  destruct (faults w (op_Formatter _ _)); simpl; [reflexivity|].
  now rewrite app_nil_r.
Qed.

Lemma handlers_of_attach (h : Handler) :
  handlers_of (attach lg h w) lg = (handlers_of w lg ++ [h])%list.
Proof. unfold handlers_of, attach. world_simpl. now rewrite lookup_insert_eq. Qed.

Lemma handlers_of_after_file_handler :
  handlers_of (after_file_handler lg lv p w) lg
  = (handlers_of w lg
     ++ added (file_sink_fault w lv p)
          (file_sink (log_file_path w p) (Spec.effective_level (environ w) lv)))%list.
Proof.
  unfold after_file_handler, file_sink_fault.
  destruct (faults w (op_FileHandler _)); simpl; [now rewrite app_nil_r|].
  destruct (faults w (op_setLevel _)); simpl; [now rewrite app_nil_r|].
  destruct (faults w (op_Formatter _ _)); simpl; [now rewrite app_nil_r|].
  unfold handlers_of. world_simpl. now rewrite lookup_insert_eq.
Qed.

Lemma dirs_after_make_dir :
  dirs (after_make_dir p w)
  = match directory_fault w p with
    | Some _ => dirs w
    | None =>
        if bool_decide (p ∈ dirs w) then dirs w
        else dirs w ∪ list_to_set (p :: Str.parents p)
    end.
Proof.
  unfold after_make_dir, directory_fault.
  destruct (bool_decide _); [reflexivity|].
  now destruct (faults w _).
Qed.

(** The console installer never touches a file sink, of any logger. *)
Lemma file_sinks_after_install (k : string) :
  List.filter is_file_sink (handlers_of (after_install lg lv w) k)
  = List.filter is_file_sink (handlers_of w k).
Proof.
  unfold after_install. destruct (console_fault w lg lv); [reflexivity|].
  unfold install_sink.
  rewrite (handlers_of_update _ k
             (fun l => remove_first_console l
                       ++ [console_sink (level_to_number
                                           (Spec.effective_level (environ w) lv))])%list).
  destruct (decide _); [|reflexivity].
  rewrite List.filter_app. simpl. rewrite app_nil_r.
  apply filter_remove_first_console.
  intros h Hc. unfold is_console in Hc. unfold is_file_sink.
  now destruct (h_sink h).
Qed.

End Frames.

Lemma handlers_of_after_make_dir (p k : string) (w : World) :
  handlers_of (after_make_dir p w) k = handlers_of w k.
Proof.
  unfold handlers_of.
  now destruct (after_make_dir_frame p w) as (_ & _ & -> & _).
Qed.

(** ** What setup leaves behind, where the fallback works *)

Section AfterSetup.

Variables (lg lv : string) (w : World).

Lemma directory_fault_after_install (p : string) :
  directory_fault (after_install lg lv w) p = directory_fault w p.
Proof.
  unfold directory_fault.
  destruct (after_install_frame lg lv w) as (_ & -> & _ & _ & ->). reflexivity.
Qed.

Lemma file_sink_fault_stable (p : string) :
  file_sink_fault (after_make_dir p (after_install lg lv w)) lv p
  = file_sink_fault w lv p.
Proof.
  unfold file_sink_fault, log_file_path.
  destruct (after_make_dir_frame p (after_install lg lv w)) as (-> & _ & _ & _ & ->).
  destruct (after_install_frame lg lv w) as (-> & _ & _ & _ & ->). reflexivity.
Qed.

Lemma file_sink_stable (p : string) :
  file_sink (log_file_path (after_make_dir p (after_install lg lv w)) p)
    (Spec.effective_level (environ (after_make_dir p (after_install lg lv w))) lv)
  = file_sink (log_file_path w p) (Spec.effective_level (environ w) lv).
Proof.
  unfold log_file_path.
  destruct (after_make_dir_frame p (after_install lg lv w)) as (-> & _ & _ & _ & _).
  destruct (after_install_frame lg lv w) as (-> & _ & _ & _ & _). reflexivity.
Qed.

Lemma stdout_after_setup :
  stdout (after_setup lg lv w)
  = (stdout w
     ++ reported "Error installing coloredlogs" (console_fault w lg lv)
     ++ match requested_log_path w with
        | Some p =>
            reported "Error creating the log directory" (directory_fault w p)
            ++ reported "Error creating log file handler" (file_sink_fault w lv p)
        | None => []
        end)%list.
Proof.
  unfold after_setup. destruct (requested_log_path w) as [p|].
  - rewrite stdout_after_file_handler, stdout_after_make_dir, stdout_after_install.
    rewrite file_sink_fault_stable, directory_fault_after_install.
    now rewrite <- !app_assoc.
  - rewrite stdout_after_install. now rewrite app_nil_r.
Qed.

(** The logger of the wrapper: what the console step left, then the file
    sink if its steps succeeded. *)
Lemma handlers_of_after_setup :
  handlers_of (after_setup lg lv w) lg
  = (handlers_of (after_install lg lv w) lg
     ++ match requested_log_path w with
        | Some p =>
            added (file_sink_fault w lv p)
              (file_sink (log_file_path w p) (Spec.effective_level (environ w) lv))
        | None => []
        end)%list.
Proof.
  unfold after_setup. destruct (requested_log_path w) as [p|].
  - rewrite handlers_of_after_file_handler.
    rewrite file_sink_fault_stable, file_sink_stable.
    now rewrite handlers_of_after_make_dir.
  - now rewrite app_nil_r.
Qed.




End AfterSetup.



(** ** The loggers the console installer can pick *)

Lemma logger_key_nonempty (name : string) : logger_key name <> "".
Proof.
  unfold logger_key. destruct (String.eqb name "") eqn:H; [discriminate|].
  now apply String.eqb_neq in H.
Qed.

Lemma logger_key_of_key (k : string) : k <> "" -> logger_key k = k.
Proof.
  intros H. unfold logger_key. apply String.eqb_neq in H. now rewrite H.
Qed.

Lemma get_Some_lt (s : string) (j : nat) (c : ascii) :
  String.get j s = Some c -> (j < String.length s)%nat.
Proof.
  revert j. induction s as [|a s IH]; intros j H; simpl in *; [discriminate|].
  destruct j as [|j]; [lia|]. apply IH in H. lia.
Qed.

Lemma rfind_dot_lt (s : string) (hi j : nat) :
  Str.rfind_dot s hi = Some j -> (j < String.length s)%nat.
Proof.
  induction hi as [|hi IH]; simpl; [discriminate|].
  destruct (String.get hi s) as [c|] eqn:Hget; [|exact IH].
  destruct (Ascii.eqb c "."); [|exact IH].
  intros [= <-]. eapply get_Some_lt. exact Hget.
Qed.

Lemma dotted_prefixes_nonempty (fuel : nat) (name : string) (i : option nat) :
  (forall j, i = Some j -> (j < String.length name)%nat) ->
  Forall (fun a => a <> "") (dotted_prefixes fuel name i).
Proof.
  revert i. induction fuel as [|fuel IH]; intros i Hi; simpl; [constructor|].
  destruct i as [i|]; [|constructor].
  destruct (Nat.ltb 0 i) eqn:Hpos; [|constructor].
  constructor.
  - apply Nat.ltb_lt in Hpos. specialize (Hi i eq_refl).
    destruct i as [|i]; [lia|].
    destruct name as [|c name]; [simpl in Hi; lia | discriminate].
  - apply IH. intros j Hj. eapply rfind_dot_lt. exact Hj.
Qed.

Lemma ancestor_names_nonempty (name : string) :
  Forall (fun a => a <> "") (ancestor_names name).
Proof.
  apply dotted_prefixes_nonempty. intros j Hj. eapply rfind_dot_lt. exact Hj.
Qed.

Lemma parent_of_nonempty (w : World) (key p : string) :
  parent_of w key = Some p -> p <> "".
Proof.
  unfold parent_of. destruct (String.eqb key "root"); [discriminate|].
  intros [= <-].
  destruct (List.find _ (ancestor_names key)) as [a|] eqn:Hfind; simpl; [|discriminate].
  apply List.find_some in Hfind as [Hin _].
  pose proof (ancestor_names_nonempty key) as Hall.
  rewrite List.Forall_forall in Hall. now apply Hall.
Qed.

Lemma propagation_chain_nonempty (fuel : nat) (w : World) (key : string) :
  key <> "" -> Forall (fun a => a <> "") (propagation_chain fuel w key).
Proof.
  revert key. induction fuel as [|fuel IH]; intros key Hkey; simpl.
  - now repeat constructor.
  - constructor; [exact Hkey|].
    destruct (bool_decide _); [constructor|].
    destruct (parent_of w key) as [p|] eqn:Hp; [|constructor].
    apply IH. eapply parent_of_nonempty. exact Hp.
Qed.

(** The logger the installer picks is named by a key. *)
Lemma install_target_key (w : World) (lg : string) :
  logger_key (install_target w lg) = install_target w lg.
Proof.
  apply logger_key_of_key. unfold install_target.
  destruct (List.find _ _) as [k|] eqn:Hfind; simpl.
  - apply List.find_some in Hfind as [Hin _].
    pose proof (propagation_chain_nonempty (S (String.length lg)) w (logger_key lg)
                  (logger_key_nonempty lg)) as Hall.
    rewrite List.Forall_forall in Hall. now apply Hall.
  - apply logger_key_nonempty.
Qed.

(** The console sink is the last handler of the logger the installer
    picked; the console sink that logger had before is gone. *)
Lemma handlers_of_install_sink (lg lvl : string) (w : World) :
  handlers_of (install_sink lg lvl w) (install_target w lg)
  = (remove_first_console (handlers_of w (install_target w lg))
     ++ [console_sink (level_to_number lvl)])%list.
Proof.
  unfold install_sink.
  rewrite (handlers_of_update _ (install_target w lg)
             (fun l => remove_first_console l ++ [console_sink (level_to_number lvl)])%list).
  rewrite install_target_key. destruct (decide _); [reflexivity | contradiction].
Qed.

Lemma level_to_number_effective (env : gmap string string) (lv : string) :
  level_to_number (Spec.effective_level env lv)
  = if defined_level (Spec.effective_level env lv)
    then Spec.effective_level env lv else "INFO".
Proof.
  unfold level_to_number, Spec.effective_level. now rewrite upper_idem.
Qed.

Lemma logger_key_idem (name : string) : logger_key (logger_key name) = logger_key name.
Proof. apply logger_key_of_key, logger_key_nonempty. Qed.

Lemma handlers_of_key (w : World) (k : string) :
  handlers_of w (logger_key k) = handlers_of w k.
Proof. unfold handlers_of. now rewrite logger_key_idem. Qed.

(** ** Construction and the sinks *)

(** The console installer at work.  A wrapper constructed on "svc.db"
    while "svc" holds a console sink replaces that sink, on "svc"; a second
    wrapper on one name replaces the console sink of the first and adds a
    second file sink; the empty name is the root logger. *)
Example install_replaces_ancestor_console :
  let w' := snd (Logger.new "svc.db" "info" parent_console_world) in
  handlers_of w' "svc" = [console_sink "INFO"] /\ handlers_of w' "svc.db" = [].
Proof. split; vm_compute; reflexivity. Qed.

Example second_wrapper_replaces_console :
  handlers_of (snd (construct_twice "svc" "info" "debug" fresh_world)) "svc"
  = [ file_sink "/var/log/app/vulcan.log" "INFO";
      console_sink "DEBUG";
      file_sink "/var/log/app/vulcan.log" "DEBUG" ].
Proof. vm_compute. reflexivity. Qed.

Example empty_name_is_root :
  handlers_of (snd (Logger.new "" "info" demo_world)) "root" = [console_sink "INFO"].
Proof. vm_compute. reflexivity. Qed.




(** C6 as stated fails: with VULCAN_LOG_LEVEL=verbose the console sink does
    not get the level VERBOSE. *)
Lemma console_level_falls_back :
  ~ Spec.console_level_is_effective 0%nat "svc" "DEBUG" verbose_world.
Proof.
  intros H. specialize (H (console_sink "INFO")).
  assert (handlers_of (snd (Logger._install_coloredlogs 0%nat verbose_world)) "svc"
          = [console_sink "INFO"]) as Heq by (vm_compute; reflexivity).
  rewrite Heq in H.
  discriminate (H (proj2 (list_elem_of_singleton _ _) eq_refl) eq_refl).
Qed.

(** C6, amended. Both sinks are given the level U: the value of
    VULCAN_LOG_LEVEL when the variable is set and the instance's configured
    level otherwise, upper-cased.  The file sink that gets attached has
    threshold U.  The console sink that gets installed has threshold U when
    U is one of the level names the logging package defines, and INFO when
    it is not.  Stated for level strings within ASCII, where [Str.upper] is
    Python's [upper]. *)
Theorem sinks_get_effective_level (self : loc) (w : World) (lg lv p : string) :
  constructed w self lg lv ->
  let requested := match environ w !! "VULCAN_LOG_LEVEL" with
                   | Some v => v
                   | None => lv
                   end in
  Str.is_ascii requested = true ->
  (console_fault w lg lv = None ->
   handlers_of (snd (Logger._install_coloredlogs self w)) (install_target w lg)
   = (remove_first_console (handlers_of w (install_target w lg))
      ++ [mkHandler Console
            (if defined_level (Str.upper requested) then Str.upper requested else "INFO")
            (Some (mkFormatter LOG_FORMAT DATE_FORMAT))])%list)
  /\ (file_sink_fault w lv p = None ->
      handlers_of (snd (Logger._file_handler self p w)) lg
      = (handlers_of w lg
         ++ [mkHandler (File (log_file_path w p)) (Str.upper requested)
               (Some (mkFormatter LOG_FORMAT DATE_FORMAT))])%list).
Proof.
  intros Hc requested _. split.
  - intros Hok. rewrite (install_run w self lg lv Hc).
    unfold install_outcome. rewrite Hok. cbn [snd].
    rewrite handlers_of_install_sink, level_to_number_effective. reflexivity.
  - intros Hok. rewrite (file_handler_run w self lg lv Hc).
    unfold file_handler_outcome. rewrite Hok. cbn [snd].
    rewrite handlers_of_after_file_handler, Hok. reflexivity.
Qed.

Lemma sinks_get_effective_level_witness :
  handlers_of (snd (Logger._install_coloredlogs 0%nat prepared_world)) "svc"
  = [console_sink "WARNING"] /\
  handlers_of (snd (Logger._file_handler 0%nat "/var/log/app" prepared_world)) "svc"
  = [file_sink "/var/log/app/billing.log" "WARNING"].
Proof.
  destruct (sinks_get_effective_level 0%nat prepared_world "svc" "DEBUG"
              "/var/log/app" eq_refl eq_refl) as [Hconsole Hfile].
  split.
  - apply Hconsole. reflexivity.
  - apply Hfile. reflexivity.
Defined.

(** C8. When its steps succeed, [_file_handler] attaches a file sink whose
    target is the join of the log_path directory with the file name
    "{v}.log", where v is the value of VULCAN_LOG_NAME when set and
    "vulcan" otherwise; that sink carries the record format and the
    timestamp pattern that the console sink is installed with. *)
Theorem file_sink_path_and_format (self : loc) (w : World) (lg lv p : string) :
  constructed w self lg lv ->
  (file_sink_fault w lv p = None ->
   exists threshold,
     handlers_of (snd (Logger._file_handler self p w)) lg
     = (handlers_of w lg
        ++ [mkHandler
              (File (Str.join p (match environ w !! "VULCAN_LOG_NAME" with
                                 | Some v => v ++ ".log"
                                 | None => "vulcan.log"
                                 end)))
              threshold
              (Some (mkFormatter LOG_FORMAT DATE_FORMAT))])%list)
  /\ (console_fault w lg lv = None ->
      exists threshold others,
        handlers_of (snd (Logger._install_coloredlogs self w)) (install_target w lg)
        = (others ++ [mkHandler Console threshold
                        (Some (mkFormatter LOG_FORMAT DATE_FORMAT))])%list).
Proof.
  intros Hc. split.
  - intros Hok. eexists. rewrite (file_handler_run w self lg lv Hc).
    unfold file_handler_outcome. rewrite Hok. cbn [snd].
    rewrite handlers_of_after_file_handler, Hok. reflexivity.
  - intros Hok. do 2 eexists. rewrite (install_run w self lg lv Hc).
    unfold install_outcome. rewrite Hok. cbn [snd].
    rewrite handlers_of_install_sink. reflexivity.
Qed.

Lemma file_sink_path_and_format_witness :
  (exists threshold,
      handlers_of (snd (Logger._file_handler 0%nat "/var/log/app" prepared_world)) "svc"
      = [mkHandler (File "/var/log/app/billing.log") threshold
           (Some (mkFormatter LOG_FORMAT DATE_FORMAT))])
  /\ exists threshold others,
      handlers_of (snd (Logger._install_coloredlogs 0%nat prepared_world)) "svc"
      = (others ++ [mkHandler Console threshold
                      (Some (mkFormatter LOG_FORMAT DATE_FORMAT))])%list.
Proof.
  destruct (file_sink_path_and_format 0%nat prepared_world "svc" "DEBUG"
              "/var/log/app" eq_refl) as [Hfile Hconsole].
  split.
  - apply Hfile. reflexivity.
  - apply Hconsole. reflexivity.
Defined.




(** ** Further properties of the module *)

(** *** Runs that cannot tell two worlds apart *)

Lemma agree_refl (w : World) : agree w w.
Proof. now repeat split. Qed.

Lemma propagation_chain_agree (fuel : nat) (w1 w2 : World) (key : string) :
  agree w1 w2 -> propagation_chain fuel w1 key = propagation_chain fuel w2 key.
Proof.
  intros (_ & _ & _ & Hh & Hp & _). revert key.
  induction fuel as [|fuel IH]; intros key; simpl; [reflexivity|].
  unfold parent_of. rewrite Hh, Hp.
  destruct (bool_decide _); [reflexivity|].
  destruct (String.eqb key "root"); [reflexivity|]. now rewrite IH.
Qed.

Lemma install_target_agree (w1 w2 : World) (lg : string) :
  agree w1 w2 -> install_target w1 lg = install_target w2 lg.
Proof.
  intros H. unfold install_target. rewrite (propagation_chain_agree _ _ _ _ H).
  destruct H as (_ & _ & _ & -> & _). reflexivity.
Qed.

Lemma internal_error_agree (self : loc) (context : string) (e : Exception)
    (w1 w2 : World) :
  agree w1 w2 ->
  same_outcome (Logger._internal_error self context e w1)
               (Logger._internal_error self context e w2).
Proof.
  intros H. pose proof H as (He & Hd & Hfi & Hh & Hp & Hf).
  rewrite !internal_error_run, Hf.
  destruct (faults w2 (op_str e)); [now split|].
  destruct (faults w2 (op_print _)); [now split|].
  split; [reflexivity|]. now repeat split.
Qed.

Lemma install_outcome_agree (lg lv1 lv2 : string) (w1 w2 : World) :
  agree w1 w2 ->
  Spec.effective_level (environ w1) lv1 = Spec.effective_level (environ w2) lv2 ->
  same_outcome (install_outcome lg lv1 w1) (install_outcome lg lv2 w2).
Proof.
  intros H Hlevel. pose proof H as (He & Hd & Hfi & Hh & Hp & Hf).
  unfold install_outcome, console_fault. rewrite Hlevel, Hf.
  destruct (faults w2 _); [now apply internal_error_agree|].
  split; [reflexivity|].
  unfold install_sink. rewrite (install_target_agree _ _ _ H).
  repeat split; world_simpl; congruence.
Qed.

Lemma make_dir_outcome_agree (p : string) (w1 w2 : World) :
  agree w1 w2 -> same_outcome (make_dir_outcome p w1) (make_dir_outcome p w2).
Proof.
  intros H. pose proof H as (He & Hd & Hfi & Hh & Hp & Hf).
  unfold make_dir_outcome, directory_fault, after_make_dir. rewrite Hd, Hf.
  destruct (bool_decide _); [now split|].
  destruct (faults w2 _).
  - apply internal_error_agree. exact H.
  - split; [reflexivity|]. repeat split; world_simpl; congruence.
Qed.

Lemma file_handler_outcome_agree (lg lv1 lv2 p : string) (w1 w2 : World) :
  agree w1 w2 ->
  Spec.effective_level (environ w1) lv1 = Spec.effective_level (environ w2) lv2 ->
  same_outcome (file_handler_outcome lg lv1 p w1) (file_handler_outcome lg lv2 p w2).
Proof.
  intros H Hlevel. pose proof H as (He & Hd & Hfi & Hh & Hp & Hf).
  assert (forall more,
             agree (with_files (fun fs => fs ∪ more) w1)
                   (with_files (fun fs => fs ∪ more) w2)) as Hopened
    by (intros more; repeat split; world_simpl; congruence).
  unfold file_handler_outcome, file_sink_fault, after_file_handler, log_file_path.
  rewrite Hlevel, He, Hf.
  destruct (faults w2 (op_FileHandler _)); [now apply internal_error_agree|].
  destruct (faults w2 (op_setLevel _)); [apply internal_error_agree, Hopened|].
  destruct (faults w2 (op_Formatter _ _)); [apply internal_error_agree, Hopened|].
  split; [reflexivity|]. repeat split; world_simpl; congruence.
Qed.

Lemma file_branch_outcome_agree (lg lv1 lv2 p : string) (w1 w2 : World) :
  agree w1 w2 ->
  Spec.effective_level (environ w1) lv1 = Spec.effective_level (environ w2) lv2 ->
  same_outcome (file_branch_outcome lg lv1 p w1) (file_branch_outcome lg lv2 p w2).
Proof.
  intros H Hlevel. unfold file_branch_outcome.
  destruct (make_dir_outcome_agree p w1 w2 H) as [Hr Ha].
  destruct (make_dir_outcome p w1) as [r1 u1] eqn:Hmk1,
           (make_dir_outcome p w2) as [r2 u2] eqn:Hmk2.
  cbn [fst snd] in Hr, Ha. subst r2.
  destruct r1 as [[]|e]; [|now apply internal_error_agree].
  assert (Spec.effective_level (environ u1) lv1 = Spec.effective_level (environ u2) lv2)
    as Hlevel'.
  { pose proof (extends_make_dir_outcome p w1) as E1.
    pose proof (extends_make_dir_outcome p w2) as E2.
    rewrite Hmk1 in E1. rewrite Hmk2 in E2. cbn [snd] in E1, E2.
    now rewrite (ext_environ _ _ E1), (ext_environ _ _ E2). }
  destruct (file_handler_outcome_agree lg lv1 lv2 p u1 u2 Ha Hlevel') as [Hr' Ha'].
  destruct (file_handler_outcome lg lv1 p u1) as [r1 v1],
           (file_handler_outcome lg lv2 p u2) as [r2 v2].
  cbn [fst snd] in Hr', Ha'. subst r2.
  destruct r1 as [[]|e]; [now split | now apply internal_error_agree].
Qed.

Lemma setup_outcome_agree (lg lv1 lv2 : string) (w1 w2 : World) :
  agree w1 w2 ->
  Spec.effective_level (environ w1) lv1 = Spec.effective_level (environ w2) lv2 ->
  same_outcome (setup_outcome lg lv1 w1) (setup_outcome lg lv2 w2).
Proof.
  intros H Hlevel. unfold setup_outcome.
  destruct (install_outcome_agree lg lv1 lv2 w1 w2 H Hlevel) as [Hr Ha].
  pose proof (extends_install_outcome lg lv1 w1) as E1.
  pose proof (extends_install_outcome lg lv2 w2) as E2.
  destruct (install_outcome lg lv1 w1) as [r1 u1], (install_outcome lg lv2 w2) as [r2 u2].
  cbn [fst snd] in Hr, Ha, E1, E2. subst r2.
  destruct r1 as [[]|e]; [|now split].
  unfold requested_log_path. destruct Ha as (He & Ha). rewrite He.
  destruct (environ u2 !! "log_path") as [p|]; [|now split].
  destruct (Logger.truthy p); [|now split].
  apply file_branch_outcome_agree; [now split|].
  now rewrite (ext_environ _ _ E1), (ext_environ _ _ E2).
Qed.


Lemma instances_before_setup (name level : string) (w : World) :
  instances (before_setup name level w)
  = (instances w
     ++ [mkInstance (Some (logger_key name)) (Some (Str.upper level))])%list.
Proof.
  unfold before_setup. world_simpl.
  rewrite <- (Nat.add_0_r (length (instances w))).
  now rewrite !alter_app_r.
Qed.

Lemma snd_new (name level : string) (w : World) :
  snd (Logger.new name level w)
  = snd (setup_outcome (logger_key name) (Str.upper level) (before_setup name level w)).
Proof. rewrite new_run. now destruct (setup_outcome _ _ _) as [[[]|e] w']. Qed.

(** X1. Whether or not the constructor returns normally, afterwards the
    heap holds the wrappers it held before, unchanged, followed by one new
    object whose attributes are the logger of the given name and the
    upper-cased level; where the fallback works, the constructor returns
    that object.  Stated for level strings within ASCII. *)
Theorem construction_stores_attributes (name level : string) (w : World) :
  Str.is_ascii level = true ->
  let r := Logger.new name level w in
  instances (snd r)
  = (instances w
     ++ [mkInstance (Some (logger_key name)) (Some (Str.upper level))])%list /\
  (fallback_works w -> fst r = Return (length (instances w))).
Proof.
  intros _. simpl. split.
  - rewrite snd_new.
    rewrite (ext_instances _ _ (extends_setup_outcome _ _ _)).
    apply instances_before_setup.
  - intros Hworks. now rewrite new_works.
Qed.

Lemma construction_stores_attributes_witness :
  instances (snd (Logger.new "" "warning" demo_world))
  = [ mkInstance (Some "svc") (Some "DEBUG");
      mkInstance (Some "root") (Some "WARNING") ].
Proof.
  apply (construction_stores_attributes "" "warning" demo_world). reflexivity.
Defined.



Lemma loop_result_bare (frames : list FrameInfo) (ci : CallerInfo) :
  Str.has_sep (caller_filename ci) = false ->
  Str.has_sep (caller_filename (Logger._stack_trace_loop frames ci)) = false.
Proof.
  intros H. induction frames as [|f frames IH]; simpl; [exact H|].
  destruct (Logger.excluded f); simpl; [exact IH | apply basename_no_sep].
Qed.

(** X3. The file name a public method attaches to a record never contains a
    path separator, whatever the call stack: it is a bare file name or
    "Unknown". *)
Theorem reported_filename_is_bare (sev : Severity) (self : loc) (message : string)
    (callers : list FrameInfo) (w : World) (c : LogCall) :
  calls (snd (Logger.method sev self message callers w)) = (calls w ++ [c])%list ->
  Str.has_sep (caller_filename (lc_extra c)) = false.
Proof.
  rewrite method_run.
  destruct (instances w !! self ≫= logger) as [lg|]; cbn [snd].
  - rewrite Logger_method_run. cbn zeta. intros H.
    assert (c = mkLogCall sev lg message (caller_info_of callers) (Spec.exc_info sev))
      as ->.
    { destruct (faults w _); cbn [snd] in H; world_simpl; simpl in H;
        apply app_inv_head in H; now injection H. }
    apply loop_result_bare. reflexivity.
  - intros H. rewrite <- (app_nil_r (calls w)) in H at 1.
    apply app_inv_head in H. discriminate H.
Qed.

Lemma reported_filename_is_bare_witness :
  Str.has_sep "main.py" = false.
Proof.
  apply (reported_filename_is_bare INFO 0%nat "started" demo_callers demo_world
           (mkLogCall INFO "svc" "started" (mkCallerInfo "main.py" 41) false)).
  reflexivity.
Defined.

(** X4. A calling frame whose own file name ends with one of the excluded
    suffixes (an application's [app_logger.py], say) is never the reported
    caller: the record names the frame beyond it. *)
Theorem excluded_caller_is_passed_over (self : loc) (w : World) (l_base l_method : Z)
    (f : FrameInfo) (rest : list FrameInfo) (suffix : string) :
  In suffix EXCLUDE ->
  Str.endswith (filename f) suffix = true ->
  Logger._stack_trace self
    (mkFrame (this_file w) l_base :: mkFrame (this_file w) l_method :: f :: rest) w
  = Logger._stack_trace self
      (mkFrame (this_file w) l_base :: mkFrame (this_file w) l_method :: rest) w.
Proof.
  intros Hin Hend. rewrite !stack_trace_run. unfold caller_info_of. simpl.
  assert (Logger.excluded f = true) as ->; [|reflexivity].
  unfold Logger.excluded, Str.endswith_any. apply existsb_exists. eauto.
Qed.

Lemma excluded_caller_is_passed_over_witness :
  Logger._stack_trace 0%nat
    (mkFrame (this_file demo_world) 129 :: mkFrame (this_file demo_world) 140
       :: mkFrame "/app/app_logger.py" 88 :: [mkFrame "/app/main.py" 41]) demo_world
  = (Return (mkCallerInfo "main.py" 41), demo_world).
Proof.
  rewrite (excluded_caller_is_passed_over 0%nat demo_world 129 140
             (mkFrame "/app/app_logger.py" 88) [mkFrame "/app/main.py" 41] "logger.py").
  - reflexivity.
  - simpl. auto.
  - reflexivity.
Defined.


(** X5. The level argument of the constructor is case-insensitive: two
    level strings with the same upper-case form give the same result and
    the same world. *)
Theorem level_is_case_insensitive (name level1 level2 : string) (w : World) :
  Str.upper level1 = Str.upper level2 ->
  Logger.new name level1 w = Logger.new name level2 w.
Proof.
  intros H. rewrite !new_run. unfold before_setup. now rewrite H.
Qed.

Lemma level_is_case_insensitive_witness :
  Logger.new "svc" "Info" fresh_world = Logger.new "svc" "INFO" fresh_world.
Proof. apply level_is_case_insensitive. reflexivity. Defined.

Lemma effective_level_env_set (env : gmap string string) (v lv : string) :
  env !! "VULCAN_LOG_LEVEL" = Some v -> Spec.effective_level env lv = Str.upper v.
Proof. unfold Spec.effective_level. now intros ->. Qed.

(** X6. When VULCAN_LOG_LEVEL is set, the constructor's level argument has
    no influence on the sinks: whatever level is passed, the logger ends up
    with the same handlers. *)
Theorem env_level_overrides_argument (name level1 level2 v : string) (w : World) :
  environ w !! "VULCAN_LOG_LEVEL" = Some v ->
  handlers_of (snd (Logger.new name level1 w)) name
  = handlers_of (snd (Logger.new name level2 w)) name.
Proof.
  intros Hv. rewrite !snd_new.
  destruct (setup_outcome_agree (logger_key name) (Str.upper level1) (Str.upper level2)
              (before_setup name level1 w) (before_setup name level2 w))
    as (_ & _ & _ & _ & Hh & _).
  - now repeat split.
  - change (environ (before_setup name level1 w)) with (environ w).
    change (environ (before_setup name level2 w)) with (environ w).
    now rewrite !(effective_level_env_set _ v _ Hv).
  - unfold handlers_of. now rewrite Hh.
Qed.

Lemma env_level_overrides_argument_witness :
  handlers_of (snd (Logger.new "svc" "debug" configured_world)) "svc"
  = handlers_of (snd (Logger.new "svc" "critical" configured_world)) "svc".
Proof.
  apply (env_level_overrides_argument "svc" "debug" "critical" "warning").
  reflexivity.
Defined.

Lemma reported_not_outer (context : string) (o : option Exception) (e : Exception) :
  context = "Error installing coloredlogs" \/
  context = "Error creating the log directory" \/
  context = "Error creating log file handler" ->
  ~ In (Spec.fallback_line "Error setting up file handler for logger" e)
      (reported context o).
Proof.
  intros Hctx Hin. destruct o as [e'|]; simpl in Hin; [|exact Hin].
  destruct Hin as [Heq|[]].
  unfold Spec.fallback_line in Heq.
  destruct Hctx as [-> | [-> | ->]]; cbv [String.append] in Heq; discriminate Heq.
Qed.

(** X7. Where the fallback works, the handler around the whole file branch
    of [_setup] never runs: the steps inside it catch their own faults, so
    no line with its context "Error setting up file handler for logger" is
    written by setup. *)
Theorem setup_outer_handler_never_runs (self : loc) (w : World) (lg lv : string) :
  constructed w self lg lv ->
  fallback_works w ->
  exists lines,
    stdout (snd (Logger._setup self w)) = (stdout w ++ lines)%list /\
    forall e,
      ~ In (Spec.fallback_line "Error setting up file handler for logger" e) lines.
Proof.
  intros Hc Hworks.
  rewrite (setup_run w self lg lv Hc), (setup_outcome_works lg lv w Hworks). cbn [snd].
  rewrite stdout_after_setup. eexists. split; [reflexivity|].
  intros e. rewrite in_app_iff. intros [H|H].
  - revert H. apply reported_not_outer. auto.
  - destruct (requested_log_path w) as [p|]; [|exact H].
    apply in_app_iff in H as [H|H]; revert H; apply reported_not_outer; auto.
Qed.

Lemma setup_outer_handler_never_runs_witness :
  exists lines,
    stdout (snd (Logger._setup 0%nat verbose_world)) = (stdout verbose_world ++ lines)%list /\
    forall e,
      ~ In (Spec.fallback_line "Error setting up file handler for logger" e) lines.
Proof.
  apply (setup_outer_handler_never_runs 0%nat verbose_world "svc" "DEBUG" eq_refl).
  split; intros; reflexivity.
Defined.



Lemma join_absolute (a b : string) :
  Str.startswith_sep b = true -> Str.join a b = b.
Proof. unfold Str.join. now intros ->. Qed.

(** X9. A VULCAN_LOG_NAME that starts with a path separator takes the log
    file out of the log_path directory: when its steps succeed,
    [_file_handler] attaches a file sink on "{VULCAN_LOG_NAME}.log" itself,
    whatever log_path is. *)
Theorem absolute_log_name_ignores_log_path (self : loc) (w : World)
    (lg lv p v : string) :
  constructed w self lg lv ->
  environ w !! "VULCAN_LOG_NAME" = Some v ->
  Str.startswith_sep v = true ->
  file_sink_fault w lv p = None ->
  exists threshold,
    handlers_of (snd (Logger._file_handler self p w)) lg
    = (handlers_of w lg
       ++ [mkHandler (File (v ++ ".log")) threshold
             (Some (mkFormatter LOG_FORMAT DATE_FORMAT))])%list.
Proof.
  intros Hc Hv Habs Hok. eexists.
  rewrite (file_handler_run w self lg lv Hc).
  unfold file_handler_outcome. rewrite Hok. cbn [snd].
  rewrite handlers_of_after_file_handler, Hok. simpl. unfold file_sink.
  unfold log_file_path, Spec.log_file_name. rewrite Hv.
  rewrite join_absolute; [reflexivity|].
  destruct v; [discriminate Habs | exact Habs].
Qed.

Lemma absolute_log_name_ignores_log_path_witness :
  exists threshold,
    handlers_of (snd (Logger._file_handler 0%nat "/var/log/app" absolute_name_world))
      "svc"
    = [mkHandler (File "/tmp/escape.log") threshold
         (Some (mkFormatter LOG_FORMAT DATE_FORMAT))].
Proof.
  apply (absolute_log_name_ignores_log_path 0%nat absolute_name_world "svc" "DEBUG"
           "/var/log/app" "/tmp/escape"); reflexivity.
Defined.

(** X10. The fallback can itself fail while [_make_dir] reports a fault.
    That exception is what the handler around the file branch of [_setup]
    catches: setup ends by reporting it under "Error setting up file handler
    for logger", and [_file_handler] is never called, so no log file is
    opened. *)
Theorem failing_report_reaches_outer_handler (self : loc) (w : World)
    (lg lv p : string) (e e' : Exception) :
  constructed w self lg lv ->
  requested_log_path w = Some p ->
  console_fault w lg lv = None ->
  directory_fault w p = Some e ->
  faults w (op_str e) = None ->
  faults w (op_print (Spec.fallback_line "Error creating the log directory" e))
  = Some e' ->
  Logger._setup self w
  = Logger._internal_error self "Error setting up file handler for logger" e'
      (after_install lg lv w)
  /\ files (snd (Logger._setup self w)) = files w.
Proof.
  intros Hc Hreq Hconsole Hdir Hstr Hprint.
  assert (Logger._setup self w
          = Logger._internal_error self "Error setting up file handler for logger" e'
              (after_install lg lv w)) as Hrun.
  { rewrite (setup_run w self lg lv Hc).
    unfold setup_outcome, install_outcome, after_install. rewrite Hconsole.
    change (requested_log_path (install_sink lg (Spec.effective_level (environ w) lv) w))
      with (requested_log_path w).
    rewrite Hreq. unfold file_branch_outcome, make_dir_outcome.
    change (directory_fault (install_sink lg (Spec.effective_level (environ w) lv) w) p)
      with (directory_fault w p).
    rewrite Hdir, internal_error_run. world_simpl. now rewrite Hstr, Hprint. }
  split; [exact Hrun|]. rewrite Hrun.
  destruct (internal_error_world self "Error setting up file handler for logger" e'
              (after_install lg lv w)) as [-> | ->];
    apply after_install_frame.
Qed.

Lemma failing_report_reaches_outer_handler_witness :
  stdout (snd (Logger._setup 0%nat unreportable_directory_world))
  = [ "Internal Logger Error: Error setting up file handler for logger | Exception: [Errno 11] write could not complete without blocking" ]
  /\ files (snd (Logger._setup 0%nat unreportable_directory_world)) = ∅.
Proof.
  destruct (failing_report_reaches_outer_handler 0%nat unreportable_directory_world
              "svc" "DEBUG" "/var/log/app" permission_denied would_block
              eq_refl eq_refl eq_refl eq_refl eq_refl eq_refl) as [Hrun Hfiles].
  split; [|exact Hfiles]. rewrite Hrun. reflexivity.
Defined.

Lemma filter_added_file (o : option Exception) (path lv : string) :
  List.filter is_file_sink (added o (file_sink path lv)) = added o (file_sink path lv).
Proof. now destruct o. Qed.

Lemma file_sinks_after_new (name level : string) (w : World) :
  fallback_works w ->
  List.filter is_file_sink (handlers_of (snd (Logger.new name level w)) name)
  = (List.filter is_file_sink (handlers_of w name)
     ++ match requested_log_path w with
        | Some p =>
            added (file_sink_fault w (Str.upper level) p)
              (file_sink (log_file_path w p)
                 (Spec.effective_level (environ w) (Str.upper level)))
        | None => []
        end)%list.
Proof.
  intros Hworks. rewrite (new_works name level w Hworks). cbn [snd].
  rewrite <- handlers_of_key, handlers_of_after_setup.
  rewrite List.filter_app, file_sinks_after_install.
  rewrite handlers_of_key, handlers_of_before_setup. f_equal.
  change (requested_log_path (before_setup name level w)) with (requested_log_path w).
  destruct (requested_log_path w) as [p|]; [|reflexivity].
  apply filter_added_file.
Qed.

Lemma new_keeps_environment (name level : string) (w : World) :
  environ (snd (Logger.new name level w)) = environ w /\
  faults (snd (Logger.new name level w)) = faults w.
Proof.
  rewrite snd_new.
  pose proof (extends_setup_outcome (logger_key name) (Str.upper level)
                (before_setup name level w)) as Hext.
  now rewrite (ext_environ _ _ Hext), (ext_faults _ _ Hext).
Qed.

(** The proviso of the next property is needed: when installing the console
    sink fails and standard output is closed, the first constructor raises
    and no file sink is attached. *)
Example no_file_sink_on_closed_stdout :
  List.filter is_file_sink
    (handlers_of (snd (construct_twice "svc" "info" "debug" closed_stdout_world)) "svc")
  = [].
Proof. vm_compute. reflexivity. Qed.

(** X11. Nothing checks whether the logger already has a file sink: where
    the fallback works, two wrappers constructed on the same logger name,
    with file output asked for and the file steps succeeding, leave the
    logger with two file sinks on the same path. *)
Theorem same_name_duplicates_file_sink (name level1 level2 p : string) (w : World) :
  fallback_works w ->
  requested_log_path w = Some p ->
  file_sink_fault w (Str.upper level1) p = None ->
  file_sink_fault w (Str.upper level2) p = None ->
  List.filter is_file_sink
    (handlers_of (snd (construct_twice name level1 level2 w)) name)
  = (List.filter is_file_sink (handlers_of w name)
     ++ [ file_sink (log_file_path w p)
            (Spec.effective_level (environ w) (Str.upper level1));
          file_sink (log_file_path w p)
            (Spec.effective_level (environ w) (Str.upper level2)) ])%list.
Proof.
  intros Hworks Hp H1 H2. unfold construct_twice, bind.
  pose proof (new_keeps_environment name level1 w) as [He Hf].
  pose proof (file_sinks_after_new name level1 w Hworks) as Hfirst.
  rewrite (new_works name level1 w Hworks) in *. cbn [snd] in *.
  assert (fallback_works
            (after_setup (logger_key name) (Str.upper level1)
               (before_setup name level1 w))) as Hworks1.
  { unfold fallback_works. rewrite Hf. exact Hworks. }
  rewrite (file_sinks_after_new name level2 _ Hworks1), Hfirst.
  unfold requested_log_path, file_sink_fault, log_file_path in *.
  rewrite He, Hf. rewrite Hp, H1, H2. simpl.
  now rewrite <- app_assoc.
Qed.

Lemma same_name_duplicates_file_sink_witness :
  List.filter is_file_sink
    (handlers_of (snd (construct_twice "svc" "info" "debug" fresh_world)) "svc")
  = [ file_sink "/var/log/app/vulcan.log" "INFO";
      file_sink "/var/log/app/vulcan.log" "DEBUG" ].
Proof.
  apply (same_name_duplicates_file_sink "svc" "info" "debug" "/var/log/app" fresh_world);
    [split; intros; reflexivity | reflexivity ..].
Defined.

(** X12. Construction only ever adds, whether or not it returns normally:
    every directory and every file that existed before still exists
    afterwards, and of every logger's handlers those that are not console
    sinks are all still there, in order, before any new one. *)
Theorem construction_only_adds (name level : string) (w : World) :
  let w' := snd (Logger.new name level w) in
  dirs w ⊆ dirs w' /\
  files w ⊆ files w' /\
  forall lg, exists more,
    List.filter (fun h => negb (is_console h)) (handlers_of w' lg)
    = (List.filter (fun h => negb (is_console h)) (handlers_of w lg) ++ more)%list.
Proof.
  simpl. rewrite snd_new.
  pose proof (extends_setup_outcome (logger_key name) (Str.upper level)
                (before_setup name level w)) as Hext.
  split; [|split].
  - apply (ext_dirs _ _ Hext).
  - apply (ext_files _ _ Hext).
  - intros lg. destruct (ext_handlers _ _ Hext lg) as [more Hmore].
    exists more. now rewrite Hmore, handlers_of_before_setup.
Qed.

(** X13. [_make_dir] is idempotent once it has succeeded: a second call on
    the same path finds the directory and changes nothing. *)
Theorem make_dir_idempotent (self : loc) (p : string) (w : World) :
  directory_fault w p = None ->
  let w1 := snd (Logger._make_dir self p w) in
  p ∈ dirs w1 /\ Logger._make_dir self p w1 = (Return tt, w1).
Proof.
  intros Hok. simpl. rewrite !make_dir_run.
  assert (make_dir_outcome p w = (Return tt, after_make_dir p w)) as ->.
  { unfold make_dir_outcome. now rewrite Hok. }
  cbn [snd].
  assert (p ∈ dirs (after_make_dir p w)) as Hin.
  { rewrite dirs_after_make_dir, Hok.
    destruct (bool_decide (p ∈ dirs w)) eqn:Hd.
    - now apply bool_decide_eq_true in Hd.
    - apply elem_of_union_r, elem_of_list_to_set, elem_of_cons. now left. }
  split; [exact Hin|].
  assert (after_make_dir p (after_make_dir p w) = after_make_dir p w) as Hagain.
  { generalize dependent (after_make_dir p w). intros w1 Hin1.
    unfold after_make_dir. now rewrite (bool_decide_eq_true_2 _ Hin1). }
  unfold make_dir_outcome, directory_fault.
  now rewrite (bool_decide_eq_true_2 _ Hin), Hagain.
Qed.

Lemma make_dir_idempotent_witness :
  "/var/log/app" ∈ dirs (snd (Logger._make_dir 0%nat "/var/log/app" fresh_world)) /\
  Logger._make_dir 0%nat "/var/log/app"
    (snd (Logger._make_dir 0%nat "/var/log/app" fresh_world))
  = (Return tt, snd (Logger._make_dir 0%nat "/var/log/app" fresh_world)).
Proof.
  apply (make_dir_idempotent 0%nat "/var/log/app" fresh_world). reflexivity.
Defined.
